(* ===== verification/_CoqProject ===== *)
-Q . S2P
Prelude.v
Machine.v
Alu.v
Decode.v
Engine.v
Loader.v
SourceFile.v
Trace.v
Stack.v
Semantics.v
Programs.v
