(* ===== verification/Prelude.v ===== *)
(** * A verification development of the LS-8 emulator ([src/cpu.py])

    ** The program

    [src/cpu.py] defines one class, [CPU], an emulator for the 8-bit LS-8
    machine.  Its state is five attributes: [ram] (a Python list of 256
    integers), [reg] (a list of 8 integers), the program counter [pc], the
    stack pointer [sp] (copied once from [reg[7]], which is 0) and the flag
    word [fl].  [load] parses the lines of an [.ls8] file into words and
    stores them from address 0; [run] is a [while True] loop that fetches
    the word at [pc] and the two words after it, then dispatches on the
    first through an [if]/[elif] chain of ten opcodes (LDI, PRN, MUL, PUSH,
    POP, CMP, JMP, JEQ, JNE, HLT).  MUL and CMP go through [alu]; HLT leaves
    the loop; any other word prints a diagnostic and calls [sys.exit(1)].
    The entry point that constructs the CPU, calls [load] and then [run]
    lives outside [src/] and is modelled from the spec.

    ** The library (files in dependency order)

    - [Prelude] (this file): Python exceptions as the result type [res] with
      its [let*] notation (scope [py_scope]); Python list indexing
      [py_get]/[py_set], with negative indices wrapping and [IndexError]
      out of range; the [ls8] hint database, the [res_inv]/[raise_inv]
      tactics and the generic list lemmas.
    - [Machine]: the record [cpu] (the five attributes), [CPU_init]
      ([__init__]), [Memory.ram_read]/[ram_write], the register accessors
      of [RegisterFile], the flag values [FL_E]/[FL_G]/[FL_L], and the
      invariant [cpu_wf] with its frame lemmas.
    - [Alu]: [Alu.alu], the string-dispatched ALU, with the functional
      specification of MUL and CMP, its error cases and its frame.
    - [Decode]: the opcode constants of [run] ([Opcodes]), the inductive
      [instr], the dispatch tests as [decode], the LS-8 opcode fields
      ([operand_count], [sets_pc], [uses_alu]), and the [Decoder] /
      [DecoderLaws] classes, the interface the engine relies on.
    - [Engine]: one handler per branch ([op_ldi] ... [op_jne]), the chain
      [dispatch], one loop iteration [step] (fetch three words, dispatch),
      the fuel-bounded loop [run], the transition relation [step_rel] and
      its closure [reachable]; [handler_spec] is the effect of each
      instruction stated abstractly, and [exec_refines] shows that the
      handlers implement it (the lemma the handler theorems are proved
      from).
    - [Loader]: the line parser of [load] ([strip], [split(" #")],
      [isnumeric], [int(s, 2)]) as [parse_line]/[parse_program], and the
      store loop [load_words].
    - [SourceFile]: the rest of [load]: [sys.argv[1]], [open] on a file
      system given as a finite map, text-mode reading with universal
      newlines and line iteration ([lines_of]); [load_file] is the whole
      method.
    - [Trace]: [CPU.trace], with Python's [%] formatting for [%02X]
      ([py_format], [fmt_0X]) and [int(s, 16)] as its reference inverse.
    - [Stack]: the spec's stack as a list ([StackSpec]) and the relation
      [stack_rel] from a machine state to it ([sp] and the cells above).
    - [Semantics]: the loop as a big-step relation [exec_loop], without
      fuel, its agreement with [run], and the termination measure of
      jump-free programs.
    - [Programs]: [boot_state] (construct, load) and [boot] (then run),
      modelled from the spec as the entry point [ls8.py] is not under
      [src/], and three programs run end to end for all their inputs.

    ** What is proved

    - The fetch-advance law: an opcode that does not set the PC advances
      it by 1 + the operand count in its top two bits (C1); the exact
      effect of LDI, PRN, PUSH, POP, JEQ, JNE and HLT (C17, C18, C16, C19,
      C4, C5, C30) and the stack pointer's moves (C15); PUSH followed by
      POP is the identity on the value and on [sp] (C2).
    - The ALU: CMP sets exactly one flag, matching =, <, > (C3); MUL keeps
      the exact product, with no 8-bit wrap-around (C6); an unknown name
      raises the ALU's exception (C22).
    - Whole programs, for every value of their operand bytes, loaded from
      an [.ls8] file named on the command line and run: the spec's
      multiplication (C7) and JEQ branch (C8) scenarios, and an exchange
      of two registers through the stack, which overwrites the program's
      first opcode as [sp] starts at 0 (C10).  They are proved by
      stepping the loop with the operands left symbolic.
    - Errors: an unrecognised word prints one diagnostic and exits with
      status 1 (C9); a step raises only [IndexError] (C13), in particular
      at [pc] 254 and 255, where the operand prefetch reads past memory
      even for HLT (C14).
    - Invariants: [cpu_wf] holds in every state reachable from a
      well-formed one (C11) and from a freshly booted program (C12).
    - Termination: a self-jump never halts (C20); a program whose memory
      holds no JMP, JEQ, JNE or PUSH opcode ends within [257 - pc]
      iterations, the measure [256 - pc] decreasing on every iteration
      (C21).
    - Loader: a program of at most 256 words is stored in order (C23), a
      longer one raises (C24), bytes written as an [.ls8] file are loaded
      back from address 0 (C25), a missing argument or file raises (C33),
      a comment without a space before [#] drops the word (C26), a
      non-binary digit raises [ValueError] (C27).
    - The debug dump: [trace] never prints, raising [TypeError] or
      [IndexError] (C28, C29).
    - Refinement: every iteration refines the abstract stack (C31), for
      stacks shallower than memory; a full stack loses its oldest value on
      PUSH (C32).
    - Supporting lemmas, not properties of their own: [run] is monotone
      in its fuel; the big-step loop [exec_loop] agrees with [run] and is
      deterministic; the models of Python's [int(s, 2)], [%02X] and
      [int(s, 16)] agree with their positional definitions.

    ** Bounds and fuel

    Integers are [Z], unbounded like Python's: the source never truncates a
    register or a memory cell, and C6 and C7 make that explicit.  [run]
    takes a fuel bound because the loop need not terminate (C20); once a
    run has ended, more fuel does not change its result
    ([Engine.run_fuel_mono]), so the program theorems hold for every fuel
    at least the number of iterations the program takes (5, 7 and 9).
    For programs without jumps C21 gives the bound itself: [257 - pc]
    iterations, since [pc] grows on every one and fetching at or past
    address 256 raises.

    ** Not modelled

    The real file system and the text encoding: a file is a list of ASCII
    characters in a finite map, so non-ASCII text and I/O errors other
    than a missing file are left out; the non-ASCII white space and
    digits accepted by Python's [strip]/[isnumeric] (the ASCII white
    space of [str.isspace] is modelled), the text layout of the lines [run] prints (an
    event records the printed value), and [%] conversions other than
    [%02X], which the source does not use. *)

From stdpp Require Import base list strings.
From Stdlib Require Import ZArith Lia.

Open Scope Z_scope.

(** ** Python exceptions

    The emulator is Python code; every failing operation it performs is a
    raised exception.  Five kinds occur in [src/cpu.py]: an [IndexError]
    from indexing the lists [self.ram], [self.reg] or [sys.argv] out of
    range, the [FileNotFoundError] of [open] on a missing file, the
    [Exception("Unsupported ALU operation")] of [CPU.alu], the
    [ValueError] of [int(s, 2)] in [CPU.load] on a digit other than 0/1,
    and the [TypeError] of a [%] string format whose argument count does
    not match its conversions ([CPU.trace]). *)
Inductive exn :=
  IndexError | UnsupportedALUOperation | ValueError | TypeError | FileNotFoundError.

#[export] Instance exn_eq_dec : EqDecision exn.
Proof. solve_decision. Defined.

(** A computation that returns a value or raises. *)
Inductive res (A : Type) : Type :=
| Ok (a : A)
| Raise (e : exn).
Arguments Ok {A} a.
Arguments Raise {A} e.

Definition res_bind {A B} (m : res A) (f : A -> res B) : res B :=
  match m with
  | Ok a => f a
  | Raise e => Raise e
  end.

Declare Scope py_scope.
Delimit Scope py_scope with py.
Notation "'let*' x ':=' m 'in' k" := (res_bind m (fun x => k))
  (at level 10, x name, m at level 100, k at level 200,
   format "'[' 'let*'  x  ':='  m  'in' ']' '/' k") : py_scope.
Open Scope py_scope.

(** ** Python list indexing

    [l[i]] on a Python list of length [n] first adds [n] to a negative
    index; the result must lie in [[0, n)], otherwise [IndexError] is
    raised.  This is the semantics of the built-in list type, on which
    both [self.ram] and [self.reg] rely; it is not code of the
    repository. *)
Definition py_norm (n : nat) (i : Z) : option nat :=
  let j := if i <? 0 then i + Z.of_nat n else i in
  if (0 <=? j) && (j <? Z.of_nat n) then Some (Z.to_nat j) else None.

(** [l[i]] as an expression. *)
Definition py_get {A} (l : list A) (i : Z) : res A :=
  match py_norm (length l) i with
  | Some k => match l !! k with Some x => Ok x | None => Raise IndexError end
  | None => Raise IndexError
  end.

(** [l[i] = x] as a statement: the list is updated in place. *)
Definition py_set {A} (l : list A) (i : Z) (x : A) : res (list A) :=
  match py_norm (length l) i with
  | Some k => Ok (<[k := x]> l)
  | None => Raise IndexError
  end.

(** ** Generic lemmas *)

Create HintDb ls8 discriminated.

Lemma res_bind_Ok_inv {A B} (m : res A) (f : A -> res B) b :
  res_bind m f = Ok b -> exists a, m = Ok a /\ f a = Ok b.
Proof. destruct m; simpl; [eauto | discriminate]. Qed.

Lemma res_bind_Ok {A B} (a : A) (f : A -> res B) : res_bind (Ok a) f = f a.
Proof. reflexivity. Qed.

Lemma res_bind_Raise {A B} e (f : A -> res B) : res_bind (Raise e) f = Raise e.
Proof. reflexivity. Qed.

Create Rewrite HintDb ls8_rw.
#[export] Hint Rewrite @res_bind_Ok @res_bind_Raise : ls8_rw.

(** Split every hypothesis [let* x := m in k = Ok v] into its two halves. *)
Ltac res_inv :=
  repeat match goal with
         | H : res_bind _ _ = Ok _ |- _ =>
             let a := fresh "a" in let Ha := fresh "Ha" in
             apply res_bind_Ok_inv in H as (a & Ha & H)
         | H : Ok _ = Ok _ |- _ => injection H as H; subst
         | H : Raise _ = Ok _ |- _ => discriminate H
         end.

(** Invert [H] with a lemma [lem : P -> Spec ...] whose conclusion is an
    inductive specification, one case per constructor. *)
Ltac inv_spec lem H :=
  let Hs := fresh "Hs" in apply lem in H as Hs; clear H; inversion Hs; subst; clear Hs.

Section PyList.
Context {A : Type}.
Implicit Types (l : list A) (x : A).

Lemma py_norm_lt n i k : py_norm n i = Some k -> (k < n)%nat.
Proof.
  unfold py_norm. intros H.
  destruct (_ && _) eqn:E; [|discriminate]. injection H as <-.
  apply andb_true_iff in E as [E1 E2]. apply Z.leb_le in E1. apply Z.ltb_lt in E2.
  lia.
Qed.

(** A non-negative index is used as it is. *)
Lemma py_norm_nonneg n i :
  0 <= i < Z.of_nat n -> py_norm n i = Some (Z.to_nat i).
Proof.
  intros Hi. unfold py_norm.
  destruct (Z.ltb_spec i 0); [lia|].
  rewrite (proj2 (Z.leb_le 0 i)), (proj2 (Z.ltb_lt i _)) by lia. reflexivity.
Qed.

(** A negative index [i] in [[-n, 0)] denotes cell [n + i]. *)
Lemma py_norm_neg n i :
  - Z.of_nat n <= i < 0 -> py_norm n i = Some (Z.to_nat (i + Z.of_nat n)).
Proof.
  intros Hi. unfold py_norm.
  destruct (Z.ltb_spec i 0); [|lia].
  rewrite (proj2 (Z.leb_le 0 _)), (proj2 (Z.ltb_lt _ _)) by lia. reflexivity.
Qed.

(** The indices that do not raise are exactly those of [[-n, n)]. *)
Lemma py_norm_None n i :
  py_norm n i = None <-> i < - Z.of_nat n \/ Z.of_nat n <= i.
Proof.
  unfold py_norm. destruct (Z.ltb_spec i 0); cbn zeta;
    [destruct (Z.leb_spec 0 (i + Z.of_nat n)), (Z.ltb_spec (i + Z.of_nat n) (Z.of_nat n))
    |destruct (Z.leb_spec 0 i), (Z.ltb_spec i (Z.of_nat n))];
    simpl; split; intros; (discriminate || lia || done).
Qed.

(** A valid index denotes cell [i] or [i + n]. *)
Lemma py_norm_Some_inv n i k :
  py_norm n i = Some k ->
  - Z.of_nat n <= i < Z.of_nat n /\ (Z.of_nat k = i \/ Z.of_nat k = i + Z.of_nat n).
Proof.
  unfold py_norm. destruct (_ && _) eqn:E; [|discriminate]. intros [= <-].
  apply andb_true_iff in E as [E1 E2]. apply Z.leb_le in E1. apply Z.ltb_lt in E2.
  destruct (Z.ltb_spec i 0); lia.
Qed.

(** Two valid indices less than [n] apart denote different cells. *)
Lemma py_norm_apart n i j :
  0 < j - i < Z.of_nat n -> py_norm n i <> None -> py_norm n i <> py_norm n j.
Proof.
  intros Hij Hi Heq. destruct (py_norm n i) as [k|] eqn:Ei; [|done].
  symmetry in Heq. apply py_norm_Some_inv in Ei, Heq. lia.
Qed.

Lemma py_get_norm l i k :
  py_norm (length l) i = Some k -> py_get l i = match l !! k with
                                               | Some x => Ok x
                                               | None => Raise IndexError end.
Proof. unfold py_get. intros ->. reflexivity. Qed.

Lemma py_get_Some l i k :
  py_norm (length l) i = Some k -> exists x, l !! k = Some x /\ py_get l i = Ok x.
Proof.
  intros H. pose proof (py_norm_lt _ _ _ H) as Hlt.
  destruct (lookup_lt_is_Some_2 l k Hlt) as [x Hx].
  exists x. split; [done|]. unfold py_get. rewrite H, Hx. reflexivity.
Qed.

Lemma py_get_Ok_inv l i x :
  py_get l i = Ok x -> exists k, py_norm (length l) i = Some k /\ l !! k = Some x.
Proof.
  unfold py_get. destruct (py_norm _ _) as [k|]; [|discriminate].
  destruct (l !! k) eqn:E; [|discriminate]. intros [= <-]. eauto.
Qed.

Lemma py_get_Raise l i : py_get l i = Raise IndexError <-> py_norm (length l) i = None.
Proof.
  split.
  - destruct (py_norm _ i) as [k|] eqn:E; [|done]. intros H.
    destruct (py_get_Some l i k E) as (x & _ & Hx). congruence.
  - intros H. unfold py_get. rewrite H. reflexivity.
Qed.

Lemma py_set_Ok_inv l i x l' :
  py_set l i x = Ok l' -> exists k, py_norm (length l) i = Some k /\ l' = <[k := x]> l.
Proof.
  unfold py_set. destruct (py_norm _ _) as [k|]; [|discriminate]. intros [= <-]. eauto.
Qed.

Lemma py_set_Raise l i x : py_set l i x = Raise IndexError <-> py_norm (length l) i = None.
Proof. unfold py_set. destruct (py_norm _ _); split; congruence. Qed.

Lemma py_set_length l i x l' : py_set l i x = Ok l' -> length l' = length l.
Proof. intros (k & _ & ->)%py_set_Ok_inv. apply length_insert. Qed.

(** Reading back the cell just written gives the value written. *)
Lemma py_get_set_eq l i j x l' :
  py_set l i x = Ok l' -> py_norm (length l) j = py_norm (length l) i ->
  py_get l' j = Ok x.
Proof.
  intros (k & Hk & ->)%py_set_Ok_inv Hj. unfold py_get.
  rewrite length_insert, Hj, Hk, list_lookup_insert_eq
    by eauto using py_norm_lt.
  reflexivity.
Qed.

(** Writing a cell leaves every other cell alone. *)
Lemma py_get_set_ne l i j x l' :
  py_set l i x = Ok l' -> py_norm (length l) j <> py_norm (length l) i ->
  py_get l' j = py_get l j.
Proof.
  intros (k & Hk & ->)%py_set_Ok_inv Hj. unfold py_get.
  rewrite length_insert. destruct (py_norm _ j) as [k'|]; [|done].
  rewrite list_lookup_insert_ne; [done|]. congruence.
Qed.

Lemma py_set_Forall (P : A -> Prop) l i x l' :
  Forall P l -> P x -> py_set l i x = Ok l' -> Forall P l'.
Proof. intros HP Hx (k & _ & ->)%py_set_Ok_inv. by apply Forall_insert. Qed.

Lemma py_get_Forall (P : A -> Prop) l i x :
  Forall P l -> py_get l i = Ok x -> P x.
Proof. intros HP (k & _ & Hk)%py_get_Ok_inv. eapply Forall_lookup_1; eauto. Qed.

(** A valid index can always be written. *)
Lemma py_set_Some l i x k :
  py_norm (length l) i = Some k -> py_set l i x = Ok (<[k := x]> l).
Proof. unfold py_set. intros ->. reflexivity. Qed.
End PyList.

Lemma py_get_Raise_inv {A} (l : list A) i e : py_get l i = Raise e -> e = IndexError.
Proof. unfold py_get. repeat case_match; congruence. Qed.

Lemma py_set_Raise_inv {A} (l : list A) i x e : py_set l i x = Raise e -> e = IndexError.
Proof. unfold py_set. case_match; congruence. Qed.

#[export] Hint Resolve py_set_length py_set_Forall : ls8.

(** Trace a hypothesis [m = Raise e] back to the Python operation that
    raised. *)
Ltac raise_inv :=
  repeat match goal with
         | H : res_bind ?m _ = Raise _ |- _ =>
             let E := fresh "E" in destruct m eqn:E; simpl in H
         | H : (if ?b then _ else _) = Raise _ |- _ => destruct b
         | H : Ok _ = Raise _ |- _ => discriminate H
         | H : Raise _ = Raise _ |- _ => injection H as H; subst
         | H : py_get _ _ = Raise _ |- _ => apply py_get_Raise_inv in H; subst
         | H : py_set _ _ _ = Raise _ |- _ => apply py_set_Raise_inv in H; subst
         end.
