(* ===== verification/Machine.v ===== *)
(** * Machine state of [class CPU] ([src/cpu.py], lines 5-20)

    The record [cpu] holds the five attributes set by [CPU.__init__]: the
    memory [ram] (a Python list of 256 integers), the register file [reg]
    (a Python list of 8 integers), the program counter [pc], the stack
    pointer [sp] and the flag word [fl].  All are unbounded Python
    integers, modelled as [Z]: the source never truncates them.

    [Memory] holds [ram_read] and [ram_write]; [RegisterFile] the reads
    and writes of [self.reg[i]] used inline by [run] and [alu].
    [cpu_wf] is the well-formedness invariant of the state that
    [Engine] proves preserved by every instruction. *)

From stdpp Require Import base list decidable.
From Stdlib Require Import ZArith Lia.
From S2P Require Import Prelude.

Open Scope Z_scope.

Record cpu := mk_cpu {
  ram : list Z;
  reg : list Z;
  pc : Z;
  sp : Z;
  fl : Z
}.

(** Attribute assignments [self.x = v]. *)
Definition set_ram (c : cpu) (r : list Z) : cpu := mk_cpu r c.(reg) c.(pc) c.(sp) c.(fl).
Definition set_reg (c : cpu) (r : list Z) : cpu := mk_cpu c.(ram) r c.(pc) c.(sp) c.(fl).
Definition set_pc (c : cpu) (p : Z) : cpu := mk_cpu c.(ram) c.(reg) p c.(sp) c.(fl).
Definition set_sp (c : cpu) (s : Z) : cpu := mk_cpu c.(ram) c.(reg) c.(pc) s c.(fl).
Definition set_fl (c : cpu) (f : Z) : cpu := mk_cpu c.(ram) c.(reg) c.(pc) c.(sp) f.

(** The three values [CPU.alu] stores in [self.fl] ([cpu.py] lines 66-70). *)
Definition FL_E : Z := 1.  (* 0b00000001: equal *)
Definition FL_G : Z := 2.  (* 0b00000010: greater than *)
Definition FL_L : Z := 4.  (* 0b00000100: less than *)

(** Number of memory cells and of general registers. *)
Definition RAM_SIZE : nat := 256.
Definition REG_COUNT : nat := 8.

(** [CPU.__init__]: zeroed memory and registers, [pc = 0], [fl = 0], and
    [self.sp = self.reg[7]] -- a copy of the value of R7, not an alias. *)
Definition CPU_init : res cpu :=
  let ram0 := replicate RAM_SIZE 0 in
  let reg0 := replicate REG_COUNT 0 in
  let* sp0 := py_get reg0 7 in
  Ok (mk_cpu ram0 reg0 0 sp0 0).

Module Memory.
(** [CPU.ram_read]: [return self.ram[mar]]. *)
Definition ram_read (c : cpu) (mar : Z) : res Z := py_get c.(ram) mar.

(** [CPU.ram_write]: [self.ram[mar] = mdr]. *)
Definition ram_write (c : cpu) (mar mdr : Z) : res cpu :=
  let* r := py_set c.(ram) mar mdr in
  Ok (set_ram c r).
End Memory.

Module RegisterFile.
(** [self.reg[i]] *)
Definition reg_get (c : cpu) (i : Z) : res Z := py_get c.(reg) i.

(** [self.reg[i] = v] *)
Definition reg_set (c : cpu) (i v : Z) : res cpu :=
  let* r := py_set c.(reg) i v in
  Ok (set_reg c r).
End RegisterFile.

(** ** Well-formedness

    Memory has 256 cells and the register file 8; every cell and register
    holds a non-negative integer (the loader stores parsed binary literals,
    and the only arithmetic is a product); the program counter is
    non-negative; the flag word is 0 or one of the three flag values. *)
Definition cpu_wf (c : cpu) : Prop :=
  length c.(ram) = RAM_SIZE /\ length c.(reg) = REG_COUNT /\
  Forall (fun v => 0 <= v) c.(ram) /\ Forall (fun v => 0 <= v) c.(reg) /\
  0 <= c.(pc) /\ c.(fl) ∈ [0; FL_E; FL_G; FL_L].

#[export] Instance cpu_wf_dec c : Decision (cpu_wf c).
Proof. unfold cpu_wf. apply _. Defined.

(** ** Lemmas on the accessors *)

Lemma set_reg_fields c r :
  ram (set_reg c r) = ram c /\ pc (set_reg c r) = pc c /\
  sp (set_reg c r) = sp c /\ fl (set_reg c r) = fl c.
Proof. done. Qed.

Lemma reg_set_Ok_inv c i v c' :
  RegisterFile.reg_set c i v = Ok c' ->
  exists r, py_set c.(reg) i v = Ok r /\ c' = set_reg c r.
Proof. unfold RegisterFile.reg_set. intros H. res_inv. eauto. Qed.

Lemma ram_write_Ok_inv c i v c' :
  Memory.ram_write c i v = Ok c' ->
  exists r, py_set c.(ram) i v = Ok r /\ c' = set_ram c r.
Proof. unfold Memory.ram_write. intros H. res_inv. eauto. Qed.

(** A register index is readable exactly when it lies in [[-8, 8)]. *)
Lemma reg_get_valid c i :
  length c.(reg) = REG_COUNT -> -8 <= i < 8 -> exists v, RegisterFile.reg_get c i = Ok v.
Proof.
  intros Hl Hi. unfold RegisterFile.reg_get.
  destruct (py_norm (length (reg c)) i) as [k|] eqn:E.
  - destruct (py_get_Some _ _ _ E) as (v & _ & Hv). eauto.
  - apply py_norm_None in E. rewrite Hl in E. unfold REG_COUNT in E. lia.
Qed.

Lemma cpu_wf_nonneg_reg c i v :
  cpu_wf c -> RegisterFile.reg_get c i = Ok v -> 0 <= v.
Proof. intros (_ & _ & _ & Hr & _). apply py_get_Forall. done. Qed.

Lemma cpu_wf_nonneg_ram c i v :
  cpu_wf c -> Memory.ram_read c i = Ok v -> 0 <= v.
Proof. intros (_ & _ & Hr & _). apply py_get_Forall. done. Qed.

#[export] Hint Resolve cpu_wf_nonneg_reg cpu_wf_nonneg_ram : ls8.

(** Writing a register that can be read succeeds, stores the value, and
    changes nothing else. *)
Lemma reg_set_spec c a x v :
  RegisterFile.reg_get c a = Ok x ->
  exists c', RegisterFile.reg_set c a v = Ok c' /\ RegisterFile.reg_get c' a = Ok v /\
    (forall j, py_norm (length c.(reg)) j <> py_norm (length c.(reg)) a ->
               RegisterFile.reg_get c' j = RegisterFile.reg_get c j) /\
    length c'.(reg) = length c.(reg) /\
    ram c' = ram c /\ pc c' = pc c /\ sp c' = sp c /\ fl c' = fl c.
Proof.
  unfold RegisterFile.reg_get, RegisterFile.reg_set.
  intros (k & Hk & _)%py_get_Ok_inv.
  rewrite (py_set_Some _ _ v _ Hk). simpl.
  eexists; split; [reflexivity|]. simpl. split; [|split; [|split]].
  - eapply py_get_set_eq; [apply py_set_Some; eauto | done].
  - intros j Hj. eapply py_get_set_ne; [apply py_set_Some; eauto | done].
  - apply length_insert.
  - done.
Qed.

(** ** The invariant under the attribute assignments *)

Section WfFrame.
Context (c : cpu) (Hwf : cpu_wf c).

Lemma wf_set_reg i v r : 0 <= v -> py_set c.(reg) i v = Ok r -> cpu_wf (set_reg c r).
Proof.
  destruct Hwf as (H1 & H2 & H3 & H4 & H5 & H6). intros Hv Hr.
  repeat split; simpl; eauto with ls8. by rewrite (py_set_length _ _ _ _ Hr).
Qed.

Lemma wf_set_ram i v r : 0 <= v -> py_set c.(ram) i v = Ok r -> cpu_wf (set_ram c r).
Proof.
  destruct Hwf as (H1 & H2 & H3 & H4 & H5 & H6). intros Hv Hr.
  repeat split; simpl; eauto with ls8. by rewrite (py_set_length _ _ _ _ Hr).
Qed.

Lemma wf_set_pc p : 0 <= p -> cpu_wf (set_pc c p).
Proof. destruct Hwf as (H1 & H2 & H3 & H4 & H5 & H6). intros. by repeat split. Qed.

Lemma wf_set_sp s : cpu_wf (set_sp c s).
Proof. destruct Hwf as (H1 & H2 & H3 & H4 & H5 & H6). by repeat split. Qed.

Lemma wf_set_fl f : f ∈ [0; FL_E; FL_G; FL_L] -> cpu_wf (set_fl c f).
Proof. destruct Hwf as (H1 & H2 & H3 & H4 & H5 & H6). intros. by repeat split. Qed.

Lemma wf_pc_nonneg : 0 <= c.(pc).
Proof. apply Hwf. Qed.
End WfFrame.

Lemma wf_reg_set c i v c' :
  cpu_wf c -> 0 <= v -> RegisterFile.reg_set c i v = Ok c' -> cpu_wf c'.
Proof. intros Hwf Hv (r & Hr & ->)%reg_set_Ok_inv. eauto using wf_set_reg. Qed.

Lemma wf_ram_write c i v c' :
  cpu_wf c -> 0 <= v -> Memory.ram_write c i v = Ok c' -> cpu_wf c'.
Proof. intros Hwf Hv (r & Hr & ->)%ram_write_Ok_inv. eauto using wf_set_ram. Qed.

#[export] Hint Resolve wf_set_pc wf_set_sp wf_set_fl wf_pc_nonneg : ls8.

(** [CPU.__init__] builds a well-formed state whose
    memory and registers are zero, with [pc], [fl] zero and the stack
    pointer equal to the initial value of R7, 0. *)
Lemma CPU_init_shape :
  exists c, CPU_init = Ok c /\ cpu_wf c /\
    c.(ram) = replicate RAM_SIZE 0 /\ c.(reg) = replicate REG_COUNT 0 /\
    c.(pc) = 0 /\ c.(fl) = 0 /\ py_get c.(reg) 7 = Ok c.(sp).
Proof.
  eexists. split; [reflexivity|].
  split; [apply (bool_decide_unpack _); vm_compute; exact I|]. by split_and!.
Qed.
