(* ===== verification/Alu.v ===== *)
(** * The ALU: [CPU.alu] ([src/cpu.py], lines 56-72)

    [alu op reg_a reg_b] dispatches on the operation name, a Python string:
    ["ADD"] and ["MUL"] update [self.reg[reg_a]] in place with the exact
    (unbounded) sum or product, ["CMP"] sets [self.fl] to one of the three
    flag values, and any other name raises
    [Exception("Unsupported ALU operation")].  Register indices follow
    Python list indexing and may raise [IndexError]. *)

From stdpp Require Import base list decidable strings sets.
From Stdlib Require Import ZArith Lia.
From S2P Require Import Prelude Machine.

Open Scope Z_scope.
Open Scope py_scope.

Module Alu.
Import RegisterFile.

Definition alu (op : string) (reg_a reg_b : Z) (c : cpu) : res cpu :=
  if String.eqb op "ADD" then
    let* x := reg_get c reg_a in
    let* y := reg_get c reg_b in
    reg_set c reg_a (x + y)
  else if String.eqb op "MUL" then
    let* x := reg_get c reg_a in
    let* y := reg_get c reg_b in
    reg_set c reg_a (x * y)
  else if String.eqb op "CMP" then
    let* x := reg_get c reg_a in
    let* y := reg_get c reg_b in
    if x =? y then Ok (set_fl c FL_E)
    else if x <? y then Ok (set_fl c FL_L)
    else if x >? y then Ok (set_fl c FL_G)
    else Ok c
  else Raise UnsupportedALUOperation.

(** ** Helper lemmas *)

(** Unfolding of an in-place arithmetic update [self.reg[a] op= self.reg[b]]. *)
Lemma arith_update_inv c a b (g : Z -> Z -> Z) c' :
  res_bind (reg_get c a) (fun x => res_bind (reg_get c b) (fun y => reg_set c a (g x y))) = Ok c' ->
  exists x y r, reg_get c a = Ok x /\ reg_get c b = Ok y /\
    py_set c.(reg) a (g x y) = Ok r /\ c' = set_reg c r.
Proof.
  intros H. res_inv. apply reg_set_Ok_inv in H as (r & Hr & ->). eauto 7.
Qed.

(** The in-place update [self.reg[a] op= self.reg[b]] on readable
    registers stores [g x y] in register [a] and changes nothing else. *)
Lemma arith_update_spec c a b x y (g : Z -> Z -> Z) :
  reg_get c a = Ok x -> reg_get c b = Ok y ->
  exists c', res_bind (reg_get c a) (fun x => res_bind (reg_get c b) (fun y => reg_set c a (g x y))) = Ok c' /\
    reg_get c' a = Ok (g x y) /\
    (forall j, py_norm (length c.(reg)) j <> py_norm (length c.(reg)) a ->
               reg_get c' j = reg_get c j) /\
    length c'.(reg) = length c.(reg) /\
    ram c' = ram c /\ pc c' = pc c /\ sp c' = sp c /\ fl c' = fl c.
Proof.
  intros Ha Hb. rewrite Ha, Hb. simpl. apply (reg_set_spec c a x). done.
Qed.

(** ** Properties *)

(** C6: ["MUL"] on two readable registers succeeds and stores the exact
    product [x * y] in register [a]: the product is not reduced to the
    8-bit cell width the spec prescribes.  Every other register and the
    memory, program counter, stack pointer and flags are unchanged. *)
Theorem alu_mul_exact c a b x y :
  reg_get c a = Ok x -> reg_get c b = Ok y ->
  exists c', alu "MUL" a b c = Ok c' /\ reg_get c' a = Ok (x * y) /\
    (forall j, py_norm (length c.(reg)) j <> py_norm (length c.(reg)) a ->
               reg_get c' j = reg_get c j) /\
    ram c' = ram c /\ pc c' = pc c /\ sp c' = sp c /\ fl c' = fl c.
Proof.
  intros Ha Hb. destruct (arith_update_spec c a b x y Z.mul Ha Hb)
    as (c' & H & H1 & H2 & _ & H3). exists c'. auto.
Qed.

(** The spec's example: 200 * 100 is stored as 20000, not as 20000 mod 256. *)
Lemma alu_mul_exact_witness :
  let c := mk_cpu [] [200; 100; 0; 0; 0; 0; 0; 0] 0 0 0 in
  (reg_get c 0 = Ok 200 /\ reg_get c 1 = Ok 100) /\
  exists c', alu "MUL" 0 1 c = Ok c' /\ reg_get c' 0 = Ok 20000 /\ 20000 <> (200 * 100) mod 256.
Proof.
  split; [split; reflexivity|].
  destruct (alu_mul_exact (mk_cpu [] [200; 100; 0; 0; 0; 0; 0; 0] 0 0 0) 0 1 200 100
              eq_refl eq_refl) as (c' & H1 & H2 & _).
  exists c'. split; [exact H1|]. split; [exact H2|]. vm_compute. discriminate.
Defined.

(** C3: ["CMP"] on two readable registers succeeds, changes only the flag
    word, and sets it to [FL_E] iff the values are equal, to [FL_L] iff
    the first is smaller and to [FL_G] iff it is greater; so exactly one
    of the three flags holds afterwards. *)
Theorem alu_cmp_spec c a b x y :
  reg_get c a = Ok x -> reg_get c b = Ok y ->
  exists c', alu "CMP" a b c = Ok c' /\
    reg c' = reg c /\ ram c' = ram c /\ pc c' = pc c /\ sp c' = sp c /\
    (fl c' = FL_E <-> x = y) /\ (fl c' = FL_L <-> x < y) /\ (fl c' = FL_G <-> x > y).
Proof.
  intros Ha Hb. unfold alu. simpl. rewrite Ha, Hb. simpl.
  destruct (Z.eqb_spec x y); [|destruct (Z.ltb_spec x y); [|destruct (Z.gtb_spec x y)]];
    eexists; (split; [reflexivity|]); cbn; unfold FL_E, FL_L, FL_G;
    repeat split; intros; try lia.
Qed.

Lemma alu_cmp_spec_witness :
  let c := mk_cpu [] [5; 9; 0; 0; 0; 0; 0; 0] 0 0 0 in
  exists c', alu "CMP" 0 1 c = Ok c' /\ (fl c' = FL_L <-> 5 < 9).
Proof.
  destruct (alu_cmp_spec (mk_cpu [] [5; 9; 0; 0; 0; 0; 0; 0] 0 0 0) 0 1 5 9 eq_refl eq_refl)
    as (c' & H & _ & _ & _ & _ & _ & HL & _).
  exists c'. split; assumption.
Defined.

(** ["ADD"], unreachable from [run] (see [Engine]), stores the exact sum. *)
Lemma alu_add_exact c a b x y :
  reg_get c a = Ok x -> reg_get c b = Ok y ->
  exists c', alu "ADD" a b c = Ok c' /\ reg_get c' a = Ok (x + y).
Proof.
  intros Ha Hb. destruct (arith_update_spec c a b x y Z.add Ha Hb) as (c' & H & H1 & _).
  exists c'. auto.
Qed.

(** C22: an operation name other than ["ADD"], ["MUL"] and ["CMP"] raises
    the ALU's own exception, whatever the registers hold. *)
Theorem alu_unsupported op a b c :
  op <> "ADD"%string -> op <> "MUL"%string -> op <> "CMP"%string ->
  alu op a b c = Raise UnsupportedALUOperation.
Proof.
  intros H1 H2 H3. unfold alu.
  destruct (String.eqb_spec op "ADD"); [done|].
  destruct (String.eqb_spec op "MUL"); [done|].
  destruct (String.eqb_spec op "CMP"); done.
Qed.

Lemma alu_unsupported_witness :
  alu "SUB" 0 1 (mk_cpu [] [1; 2; 0; 0; 0; 0; 0; 0] 0 0 0) = Raise UnsupportedALUOperation.
Proof. apply alu_unsupported; discriminate. Defined.

(** The supported operations, on registers outside [[-8, 8)], raise
    [IndexError] from the register read. *)
Lemma alu_index_error op a b c :
  op ∈ ["ADD"; "MUL"; "CMP"]%string -> length c.(reg) = REG_COUNT ->
  (a < -8 \/ 8 <= a) -> alu op a b c = Raise IndexError.
Proof.
  intros Hop Hl Ha.
  assert (reg_get c a = Raise IndexError) as E.
  { unfold reg_get. apply py_get_Raise, py_norm_None. rewrite Hl. unfold REG_COUNT. lia. }
  unfold alu. repeat (apply elem_of_cons in Hop as [->|Hop]; [simpl; rewrite E; done|]).
  by apply elem_of_nil in Hop.
Qed.

(** ** Frame and invariant *)

(** The ALU touches only the register list and the flag word. *)
Lemma alu_frame op a b c c' :
  alu op a b c = Ok c' ->
  ram c' = ram c /\ pc c' = pc c /\ sp c' = sp c /\ length c'.(reg) = length c.(reg).
Proof.
  unfold alu. destruct (String.eqb op "ADD"); [|destruct (String.eqb op "MUL");
    [|destruct (String.eqb op "CMP")]]; intros H; res_inv; try discriminate;
    try (apply reg_set_Ok_inv in H as (r & Hr & ->); simpl; eauto using py_set_length).
  repeat (case_match; res_inv; [done|]). res_inv. done.
Qed.

(** The ALU keeps the state well formed: sums and products of
    non-negative integers are non-negative. *)
Lemma alu_wf op a b c c' : cpu_wf c -> alu op a b c = Ok c' -> cpu_wf c'.
Proof.
  intros Hwf. unfold alu.
  destruct (String.eqb op "ADD"); [|destruct (String.eqb op "MUL");
    [|destruct (String.eqb op "CMP")]]; intros H; res_inv; try discriminate.
  - eapply wf_reg_set; [done| |exact H]. pose proof (cpu_wf_nonneg_reg _ _ _ Hwf Ha).
    pose proof (cpu_wf_nonneg_reg _ _ _ Hwf Ha0). lia.
  - eapply wf_reg_set; [done| |exact H]. pose proof (cpu_wf_nonneg_reg _ _ _ Hwf Ha).
    pose proof (cpu_wf_nonneg_reg _ _ _ Hwf Ha0). lia.
  - repeat (case_match; res_inv; [apply wf_set_fl; [done|set_solver]|]). res_inv. done.
Qed.

(** The names the engine passes are supported: they never raise the ALU's
    own exception, only [IndexError]. *)
Lemma alu_raise_index op a b c e :
  op ∈ ["ADD"; "MUL"; "CMP"]%string -> alu op a b c = Raise e -> e = IndexError.
Proof.
  intros Hop. unfold alu, reg_get, reg_set.
  repeat (apply elem_of_cons in Hop as [->|Hop]; [simpl; intros H; raise_inv; done|]).
  by apply elem_of_nil in Hop.
Qed.

End Alu.
