(* ===== verification/Decode.v ===== *)
(** * The instruction decoder of [CPU.run] ([src/cpu.py], lines 97-107, 114-148)

    [run] names eleven opcode constants (lines 97-107) and compares the
    fetched word [ir] with them in a chain of [if]/[elif] tests.  [Opcodes]
    holds the constants; [instr] lists the ten opcodes the chain recognises,
    in its order, and [decode] is the chain's sequence of tests: it returns
    the first opcode equal to [ir], or [None] for the final [else] (invalid
    instruction).  The constant [add] is declared but never tested, so
    [decode add = None].

    The LS-8 encoding carries the operand count in bits 7-6 of an opcode
    and marks instructions that set the program counter with bit 4 and
    ALU instructions with bit 5; [operand_count], [sets_pc] and [uses_alu]
    read those fields.  The class [Decoder] with [DecoderLaws] states what
    the decoder promises the execution engine. *)

From stdpp Require Import base list decidable.
From Stdlib Require Import ZArith Lia.
From S2P Require Import Prelude.

Open Scope Z_scope.

Module Opcodes.
Definition ldi : Z := 130.   (* 0b10000010 *)
Definition prn : Z := 71.    (* 0b01000111 *)
Definition add : Z := 160.   (* 0b10100000 *)
Definition mul : Z := 162.   (* 0b10100010 *)
Definition hlt : Z := 1.     (* 0b00000001 *)
Definition push : Z := 69.   (* 0b01000101 *)
Definition pop : Z := 70.    (* 0b01000110 *)
Definition cmp : Z := 167.   (* 0b10100111 *)
Definition jmp : Z := 84.    (* 0b01010100 *)
Definition jeq : Z := 85.    (* 0b01010101 *)
Definition jne : Z := 86.    (* 0b01010110 *)
End Opcodes.
Import Opcodes.

(** The opcodes the dispatch chain recognises, in the order it tests them. *)
Inductive instr := LDI | PRN | MUL | PUSH | POP | CMP | JMP | JEQ | JNE | HLT.

#[export] Instance instr_eq_dec : EqDecision instr.
Proof. solve_decision. Defined.

Definition opcode (i : instr) : Z :=
  match i with
  | LDI => ldi | PRN => prn | MUL => mul | PUSH => push | POP => pop
  | CMP => cmp | JMP => jmp | JEQ => jeq | JNE => jne | HLT => hlt
  end.

(** The tests [if ir == ldi: ... elif ir == prn: ... elif ir == hlt: ... else]. *)
Definition decode (ir : Z) : option instr :=
  if ir =? ldi then Some LDI
  else if ir =? prn then Some PRN
  else if ir =? mul then Some MUL
  else if ir =? push then Some PUSH
  else if ir =? pop then Some POP
  else if ir =? cmp then Some CMP
  else if ir =? jmp then Some JMP
  else if ir =? jeq then Some JEQ
  else if ir =? jne then Some JNE
  else if ir =? hlt then Some HLT
  else None.

(** Fields of the LS-8 opcode byte [AABCDDDD]. *)
Definition operand_count (ir : Z) : Z := Z.shiftr ir 6.
Definition uses_alu (ir : Z) : bool := Z.testbit ir 5.
Definition sets_pc (ir : Z) : bool := Z.testbit ir 4.

(** ** The decoder interface *)

Class Decoder (I : Type) := {
  dec_opcode : I -> Z;
  dec_decode : Z -> option I
}.

Class DecoderLaws (I : Type) `{Decoder I} := {
  dec_decode_opcode : forall i, dec_decode (dec_opcode i) = Some i;
  dec_decode_inv : forall z i, dec_decode z = Some i -> dec_opcode i = z;
  dec_opcode_byte : forall i, 0 <= dec_opcode i < 256
}.

Section DecoderFacts.
Context {I : Type} `{DecoderLaws I}.

Lemma dec_opcode_inj i j : dec_opcode i = dec_opcode j -> i = j.
Proof.
  intros E. pose proof (dec_decode_opcode i) as Hi. rewrite E, dec_decode_opcode in Hi.
  congruence.
Qed.

Lemma dec_decode_None z : dec_decode z = None <-> forall i, dec_opcode i <> z.
Proof.
  split.
  - intros Hz i <-. rewrite dec_decode_opcode in Hz. discriminate.
  - intros Hz. destruct (dec_decode z) as [i|] eqn:E; [|done].
    apply dec_decode_inv in E. by destruct (Hz i).
Qed.
End DecoderFacts.

(** ** Properties of the LS-8 decoder *)

Lemma decode_Some_inv ir i : decode ir = Some i -> opcode i = ir.
Proof.
  unfold decode.
  repeat match goal with
         | |- context [?a =? ?b] => destruct (Z.eqb_spec a b) as [->|]; [intros [= <-]; done|]
         end.
  discriminate.
Qed.

(** Decoding the opcode of an instruction gives back the instruction:
    the dispatch chain has no shadowed test. *)
Theorem decode_opcode i : decode (opcode i) = Some i.
Proof. destruct i; reflexivity. Qed.

Lemma opcode_byte i : 0 <= opcode i < 256.
Proof. destruct i; simpl; unfold ldi, prn, mul, push, pop, cmp, jmp, jeq, jne, hlt; lia. Qed.

#[export] Instance ls8_decoder : Decoder instr := {| dec_opcode := opcode; dec_decode := decode |}.

#[export] Instance ls8_decoder_laws : DecoderLaws instr.
Proof.
  constructor; simpl.
  - by intros [].
  - exact decode_Some_inv.
  - exact opcode_byte.
Qed.

(** The constant [add] of [run] is not tested by the dispatch chain:
    [decode] rejects it, so an ADD instruction is an invalid instruction
    although [alu] implements ["ADD"] and the spec lists ADD. *)
Lemma decode_add_rejected : decode add = None /\ forall i, opcode i <> add.
Proof.
  split; [reflexivity|]. exact (proj1 (dec_decode_None (I := instr) add) eq_refl).
Qed.

(** The hard-coded program-counter increments of [run] are [1 +] the
    operand-count field of each opcode. *)
Lemma operand_count_opcode i :
  operand_count (opcode i) =
    match i with
    | LDI | MUL | CMP => 2
    | PRN | PUSH | POP | JMP | JEQ | JNE => 1
    | HLT => 0
    end.
Proof. destruct i; reflexivity. Qed.

Lemma sets_pc_opcode i :
  sets_pc (opcode i) = match i with JMP | JEQ | JNE => true | _ => false end.
Proof. destruct i; reflexivity. Qed.

Lemma uses_alu_opcode i :
  uses_alu (opcode i) = match i with MUL | CMP => true | _ => false end.
Proof. destruct i; reflexivity. Qed.
