(* ===== verification/Engine.v ===== *)
(** * The execution engine: [CPU.run] ([src/cpu.py], lines 94-150)

    One iteration of [while True] is [step]: it fetches [ir = self.ram[pc]]
    and, before looking at [ir], both operand words
    [self.ram_read(pc + 1)] and [self.ram_read(pc + 2)]; then [dispatch]
    runs the [if]/[elif] chain.  Each branch is one handler [op_ldi] ...
    [op_jne]; [hlt] leaves the loop ([Break]) and the final [else] prints a
    diagnostic and calls [sys.exit(1)] ([SysExit]).  A Python exception
    escaping a handler ends the run too ([Raise]).  [run] iterates [step]
    with a fuel bound and collects the printed lines.

    [step_rel] is the transition relation of the loop, [reachable] its
    reflexive-transitive closure.  [handler_spec] states what each
    instruction does and [exec_refines] refines it by the handlers; the
    theorems of this file are the
    fetch-advance law, the handler semantics (branches, stack, flags,
    errors), preservation of [cpu_wf], fuel monotonicity and divergence of
    a self-jump. *)

From stdpp Require Import base list decidable strings sets.
From Stdlib Require Import ZArith Lia.
From S2P Require Import Prelude Machine Alu Decode.

Open Scope Z_scope.
Open Scope py_scope.

(** What the loop prints: [print(self.reg[operand_a])] and
    [print(f"Invalid instruction. {self.ram[self.pc]}")]. *)
Inductive event := Print (v : Z) | Diagnostic (ir : Z).

#[export] Instance event_eq_dec : EqDecision event.
Proof. solve_decision. Defined.

(** The result of one iteration of the loop. *)
Inductive step_out :=
| Next (c : cpu) (out : option event)  (* the loop goes on *)
| Break (c : cpu)                      (* [break] on [hlt] *)
| SysExit (code : Z) (out : event).    (* [sys.exit(code)] after printing *)

(** How [run] ends. *)
Inductive outcome :=
| Halted (c : cpu)
| Exited (code : Z)
| Crashed (e : exn)
| OutOfFuel (c : cpu).

Module Engine.
Import Opcodes Memory RegisterFile Alu.

(** [self.reg[operand_a] = operand_b; self.pc += 3] *)
Definition op_ldi (c : cpu) (operand_a operand_b : Z) : res step_out :=
  let* c1 := reg_set c operand_a operand_b in
  Ok (Next (set_pc c1 (c1.(pc) + 3)) None).

(** [print(self.reg[operand_a]); self.pc += 2] *)
Definition op_prn (c : cpu) (operand_a : Z) : res step_out :=
  let* v := reg_get c operand_a in
  Ok (Next (set_pc c (c.(pc) + 2)) (Some (Print v))).

(** [self.alu("MUL", operand_a, operand_b); self.pc += 3] *)
Definition op_mul (c : cpu) (operand_a operand_b : Z) : res step_out :=
  let* c1 := alu "MUL" operand_a operand_b c in
  Ok (Next (set_pc c1 (c1.(pc) + 3)) None).

(** [self.ram_write(self.sp, self.reg[operand_a]); self.pc += 2; self.sp -= 1] *)
Definition op_push (c : cpu) (operand_a : Z) : res step_out :=
  let* v := reg_get c operand_a in
  let* c1 := ram_write c c.(sp) v in
  let c2 := set_pc c1 (c1.(pc) + 2) in
  Ok (Next (set_sp c2 (c2.(sp) - 1)) None).

(** [self.reg[operand_a] = self.ram_read(self.sp + 1); self.sp += 1; self.pc += 2] *)
Definition op_pop (c : cpu) (operand_a : Z) : res step_out :=
  let* v := ram_read c (c.(sp) + 1) in
  let* c1 := reg_set c operand_a v in
  let c2 := set_sp c1 (c1.(sp) + 1) in
  Ok (Next (set_pc c2 (c2.(pc) + 2)) None).

(** [self.alu("CMP", operand_a, operand_b); self.pc += 3] *)
Definition op_cmp (c : cpu) (operand_a operand_b : Z) : res step_out :=
  let* c1 := alu "CMP" operand_a operand_b c in
  Ok (Next (set_pc c1 (c1.(pc) + 3)) None).

(** [self.pc = self.reg[operand_a]] *)
Definition op_jmp (c : cpu) (operand_a : Z) : res step_out :=
  let* v := reg_get c operand_a in
  Ok (Next (set_pc c v) None).

(** [if self.fl == 0b00000001: self.pc = self.reg[operand_a] else: self.pc += 2] *)
Definition op_jeq (c : cpu) (operand_a : Z) : res step_out :=
  if c.(fl) =? FL_E then
    let* v := reg_get c operand_a in
    Ok (Next (set_pc c v) None)
  else Ok (Next (set_pc c (c.(pc) + 2)) None).

(** [if self.fl != 0b00000001: self.pc = self.reg[operand_a] else: self.pc += 2] *)
Definition op_jne (c : cpu) (operand_a : Z) : res step_out :=
  if negb (c.(fl) =? FL_E) then
    let* v := reg_get c operand_a in
    Ok (Next (set_pc c v) None)
  else Ok (Next (set_pc c (c.(pc) + 2)) None).

(** The [if]/[elif] chain of the loop body. *)
Definition dispatch (c : cpu) (ir operand_a operand_b : Z) : res step_out :=
  if ir =? ldi then op_ldi c operand_a operand_b
  else if ir =? prn then op_prn c operand_a
  else if ir =? mul then op_mul c operand_a operand_b
  else if ir =? push then op_push c operand_a
  else if ir =? pop then op_pop c operand_a
  else if ir =? cmp then op_cmp c operand_a operand_b
  else if ir =? jmp then op_jmp c operand_a
  else if ir =? jeq then op_jeq c operand_a
  else if ir =? jne then op_jne c operand_a
  else if ir =? hlt then Ok (Break c)
  else
    let* w := py_get c.(ram) c.(pc) in
    Ok (SysExit 1 (Diagnostic w)).

(** One iteration: fetch the instruction word and both operand words,
    then dispatch. *)
Definition step (c : cpu) : res step_out :=
  let* ir := py_get c.(ram) c.(pc) in
  let* operand_a := ram_read c (c.(pc) + 1) in
  let* operand_b := ram_read c (c.(pc) + 2) in
  dispatch c ir operand_a operand_b.

(** [while True: ...], for at most [fuel] iterations. *)
Fixpoint run (fuel : nat) (c : cpu) : list event * outcome :=
  match fuel with
  | O => ([], OutOfFuel c)
  | S fuel' =>
      match step c with
      | Raise e => ([], Crashed e)
      | Ok (Break c') => ([], Halted c')
      | Ok (SysExit code ev) => ([ev], Exited code)
      | Ok (Next c' ev) =>
          let '(out, o) := run fuel' c' in
          (option_list ev ++ out, o)
      end
  end.

(** The loop body as a transition relation, and the states it reaches. *)
Inductive step_rel : cpu -> cpu -> Prop :=
| step_rel_next c c' ev : step c = Ok (Next c' ev) -> step_rel c c'.

Inductive reachable (c0 : cpu) : cpu -> Prop :=
| reach_refl : reachable c0 c0
| reach_step c c' : reachable c0 c -> step_rel c c' -> reachable c0 c'.

(** ** The dispatch chain is a decoder followed by a handler *)

Definition exec (i : instr) (c : cpu) (operand_a operand_b : Z) : res step_out :=
  match i with
  | LDI => op_ldi c operand_a operand_b
  | PRN => op_prn c operand_a
  | MUL => op_mul c operand_a operand_b
  | PUSH => op_push c operand_a
  | POP => op_pop c operand_a
  | CMP => op_cmp c operand_a operand_b
  | JMP => op_jmp c operand_a
  | JEQ => op_jeq c operand_a
  | JNE => op_jne c operand_a
  | HLT => Ok (Break c)
  end.

Lemma dispatch_decode c ir a b :
  dispatch c ir a b =
    match decode ir with
    | Some i => exec i c a b
    | None => let* w := py_get c.(ram) c.(pc) in Ok (SysExit 1 (Diagnostic w))
    end.
Proof.
  unfold dispatch, decode.
  repeat match goal with |- context [if ?t then _ else _] => destruct t end; reflexivity.
Qed.

(** A successful step fetched three words and ran the decoded handler. *)
Lemma step_Ok_inv c x :
  step c = Ok x ->
  exists ir a b, py_get c.(ram) c.(pc) = Ok ir /\ ram_read c (c.(pc) + 1) = Ok a /\
    ram_read c (c.(pc) + 2) = Ok b /\ dispatch c ir a b = Ok x.
Proof. unfold step. intros H. res_inv. eauto 8. Qed.

Lemma step_fetch c ir a b :
  py_get c.(ram) c.(pc) = Ok ir -> ram_read c (c.(pc) + 1) = Ok a ->
  ram_read c (c.(pc) + 2) = Ok b -> step c = dispatch c ir a b.
Proof. unfold step. intros -> -> ->. reflexivity. Qed.

(** ** What each handler does

    [handler_spec c a b i c' ev] is the effect the spec gives instruction
    [i] on state [c] with operand words [a], [b]: the next state [c'] and
    the printed event [ev].  [exec_refines] shows that every handler that
    continues the loop has that effect. *)

Section HandlerSpec.
Context (c : cpu) (a b : Z).

Inductive handler_spec : instr -> cpu -> option event -> Prop :=
| hs_ldi r : py_set c.(reg) a b = Ok r ->
    handler_spec LDI (mk_cpu c.(ram) r (c.(pc) + 3) c.(sp) c.(fl)) None
| hs_prn v : reg_get c a = Ok v ->
    handler_spec PRN (set_pc c (c.(pc) + 2)) (Some (Print v))
| hs_mul c1 : alu "MUL" a b c = Ok c1 -> handler_spec MUL (set_pc c1 (c.(pc) + 3)) None
| hs_cmp c1 : alu "CMP" a b c = Ok c1 -> handler_spec CMP (set_pc c1 (c.(pc) + 3)) None
| hs_push v r : reg_get c a = Ok v -> py_set c.(ram) c.(sp) v = Ok r ->
    handler_spec PUSH (mk_cpu r c.(reg) (c.(pc) + 2) (c.(sp) - 1) c.(fl)) None
| hs_pop v r : ram_read c (c.(sp) + 1) = Ok v -> py_set c.(reg) a v = Ok r ->
    handler_spec POP (mk_cpu c.(ram) r (c.(pc) + 2) (c.(sp) + 1) c.(fl)) None
| hs_jmp v : reg_get c a = Ok v -> handler_spec JMP (set_pc c v) None
| hs_jeq_taken v : c.(fl) = FL_E -> reg_get c a = Ok v -> handler_spec JEQ (set_pc c v) None
| hs_jeq_skip : c.(fl) <> FL_E -> handler_spec JEQ (set_pc c (c.(pc) + 2)) None
| hs_jne_taken v : c.(fl) <> FL_E -> reg_get c a = Ok v -> handler_spec JNE (set_pc c v) None
| hs_jne_skip : c.(fl) = FL_E -> handler_spec JNE (set_pc c (c.(pc) + 2)) None.

Lemma exec_refines i c' ev : exec i c a b = Ok (Next c' ev) -> handler_spec i c' ev.
Proof.
  destruct i; simpl;
    unfold op_ldi, op_prn, op_mul, op_cmp, op_push, op_pop, op_jmp, op_jeq, op_jne,
      reg_set, ram_write;
    intros H; try discriminate;
    repeat match goal with
           | H : context [?x =? ?y] |- _ => destruct (Z.eqb_spec x y); simpl in H
           end; res_inv;
    try match goal with
        | Ha : alu _ _ _ _ = Ok ?c1 |- _ =>
            destruct (alu_frame _ _ _ _ _ Ha) as (_ & Hp & _); rewrite Hp
        end;
    cbv [set_pc set_reg set_ram set_sp] in *; simpl in *; solve [econstructor; eauto].
Qed.
End HandlerSpec.

(** A step that continues the loop ran a handler chosen by [decode]. *)
Lemma step_Next_inv c c' ev :
  step c = Ok (Next c' ev) ->
  exists ir a b i, py_get c.(ram) c.(pc) = Ok ir /\ ram_read c (c.(pc) + 1) = Ok a /\
    ram_read c (c.(pc) + 2) = Ok b /\ decode ir = Some i /\ exec i c a b = Ok (Next c' ev).
Proof.
  intros (ir & a & b & H1 & H2 & H3 & H)%step_Ok_inv.
  rewrite dispatch_decode in H. destruct (decode ir) as [i|] eqn:Hi.
  - exists ir, a, b, i. auto.
  - res_inv. discriminate.
Qed.

Lemma exec_pc i c a b c' ev :
  sets_pc (opcode i) = false -> exec i c a b = Ok (Next c' ev) ->
  c'.(pc) = c.(pc) + 1 + operand_count (opcode i).
Proof.
  rewrite sets_pc_opcode, operand_count_opcode.
  intros Hs H. inv_spec exec_refines H; simpl in *; try discriminate; lia.
Qed.

Lemma exec_wf i c a b c' ev :
  cpu_wf c -> 0 <= b -> exec i c a b = Ok (Next c' ev) -> cpu_wf c'.
Proof.
  intros Hwf Hb. pose proof Hwf as (Hlr & Hlg & Hfr & Hfg & Hpc & Hfl).
  intros H. inv_spec exec_refines H;
    repeat match goal with
           | H : alu _ _ _ _ = Ok _ |- _ =>
               pose proof (alu_frame _ _ _ _ _ H) as (_ & ? & _);
               apply (alu_wf _ _ _ _ _ Hwf) in H
           | H : reg_get _ _ = Ok _ |- _ => apply (cpu_wf_nonneg_reg _ _ _ Hwf) in H
           | H : ram_read _ _ = Ok _ |- _ => apply (cpu_wf_nonneg_ram _ _ _ Hwf) in H
           end.
  all: try (apply wf_set_pc; [assumption | lia]).
  all: repeat split; simpl; eauto with ls8; try lia;
         erewrite py_set_length by eassumption; assumption.
Qed.

(** The three words a step fetches before dispatching. *)
Definition fetches (c : cpu) (ir a b : Z) : Prop :=
  py_get c.(ram) c.(pc) = Ok ir /\ ram_read c (c.(pc) + 1) = Ok a /\
  ram_read c (c.(pc) + 2) = Ok b.

Lemma step_fetches c ir a b : fetches c ir a b -> step c = dispatch c ir a b.
Proof. intros (H1 & H2 & H3). by apply step_fetch. Qed.

(** A continuing step from a fetched opcode ran that opcode's handler. *)
Lemma step_Next_exec c ir c' ev :
  py_get c.(ram) c.(pc) = Ok ir -> step c = Ok (Next c' ev) ->
  exists a b i, fetches c ir a b /\ ir = opcode i /\ exec i c a b = Ok (Next c' ev).
Proof.
  intros Hir (ir' & a & b & i & Hir' & Ha & Hb & Hdec & Hexec)%step_Next_inv.
  rewrite Hir in Hir'. injection Hir' as <-.
  exists a, b, i. repeat split; auto. symmetry. by apply decode_Some_inv.
Qed.

(** [ir = opcode i] for a known constant [ir] determines [i]. *)
Lemma opcode_eq_decode ir i : ir = opcode i -> decode ir = Some i.
Proof. intros ->. by destruct i. Qed.

Ltac opcode_is H :=
  apply opcode_eq_decode in H; vm_compute in H; injection H as <-.

(** ** Properties of the loop body *)

(** C1 (fetch-advance law): when an iteration ends normally on an opcode
    whose "sets PC" bit 4 is clear, the program counter has advanced by
    one plus the operand count held in bits 7-6 of the opcode: the
    hard-coded increments [3], [2] of [run] agree with the encoding. *)
Theorem step_pc_advance c ir c' ev :
  py_get c.(ram) c.(pc) = Ok ir -> sets_pc ir = false ->
  step c = Ok (Next c' ev) -> c'.(pc) = c.(pc) + 1 + operand_count ir.
Proof.
  intros Hir Hs Hstep. destruct (step_Next_exec _ _ _ _ Hir Hstep) as (a & b & i & _ & -> & H).
  eauto using exec_pc.
Qed.

Lemma step_pc_advance_witness :
  let c := mk_cpu ([130; 0; 8] ++ replicate 253 0) (replicate 8 0) 0 0 0 in
  exists c' ev, step c = Ok (Next c' ev) /\ c'.(pc) = c.(pc) + 1 + operand_count 130.
Proof.
  intros c. eexists; eexists. split; [reflexivity|].
  apply (step_pc_advance c 130 _ None eq_refl eq_refl). reflexivity.
Defined.

(** C2 (push/pop inverse): a PUSH of register [r] holding [v], directly
    followed by a POP into any register [r'], leaves [v] in [r'] and the
    stack pointer where it was before the PUSH.  PUSH writes [ram[sp]]
    then decrements; POP increments then reads the same cell. *)
Theorem push_pop_roundtrip c c1 c2 ev1 ev2 r r' v :
  py_get c.(ram) c.(pc) = Ok push -> ram_read c (c.(pc) + 1) = Ok r -> reg_get c r = Ok v ->
  step c = Ok (Next c1 ev1) ->
  py_get c1.(ram) c1.(pc) = Ok pop -> ram_read c1 (c1.(pc) + 1) = Ok r' ->
  step c1 = Ok (Next c2 ev2) ->
  reg_get c2 r' = Ok v /\ c2.(sp) = c.(sp).
Proof.
  intros Hir Hr Hv H1 Hir1 Hr1 H2.
  destruct (step_Next_exec _ _ _ _ Hir H1) as (a & b & i & (_ & Ha & _) & Hi & Hexec).
  rewrite Hr in Ha. injection Ha as <-. opcode_is Hi.
  inv_spec exec_refines Hexec.
  match goal with Hv' : reg_get c r = Ok _ |- _ => rewrite Hv in Hv'; injection Hv' as <- end.
  destruct (step_Next_exec _ _ _ _ Hir1 H2) as (a1 & b1 & i1 & (_ & Ha1 & _) & Hi1 & Hexec1).
  rewrite Hr1 in Ha1. injection Ha1 as <-. opcode_is Hi1.
  inv_spec exec_refines Hexec1. simpl in *.
  match goal with Hw : ram_read _ _ = Ok _ |- _ =>
    unfold ram_read in Hw; simpl in Hw; rewrite Z.sub_add in Hw;
    erewrite py_get_set_eq in Hw by eauto; injection Hw as <- end.
  split; [|lia]. unfold reg_get. simpl. eapply py_get_set_eq; eauto.
Qed.

Lemma push_pop_roundtrip_witness :
  let c := mk_cpu ([69; 0; 70; 1] ++ replicate 252 0) [42; 0; 0; 0; 0; 0; 0; 0] 0 0 0 in
  exists c1 c2, step c = Ok (Next c1 None) /\ step c1 = Ok (Next c2 None) /\
    reg_get c2 1 = Ok 42 /\ c2.(sp) = c.(sp).
Proof.
  intros c. eexists; eexists. split; [reflexivity|]. split; [reflexivity|].
  eapply (push_pop_roundtrip c _ _ None None 0 1 42); reflexivity.
Defined.

(** Unfold one step on fetched words down to the handler of the opcode. *)
Ltac step_at Hf :=
  rewrite (step_fetches _ _ _ _ Hf), dispatch_decode;
  match goal with
  | |- context [decode ?ir] => let d := eval vm_compute in (decode ir) in change (decode ir) with d
  end;
  cbn [exec].

(** C4 (JEQ): on JEQ the next program counter is the value [v] of the
    operand register when the flag word is [FL_E], and [pc + 2]
    otherwise; nothing else changes and nothing is printed. *)
Theorem step_jeq c a b v :
  fetches c jeq a b -> reg_get c a = Ok v ->
  step c = Ok (Next (set_pc c (if decide (c.(fl) = FL_E) then v else c.(pc) + 2)) None).
Proof.
  intros Hf Hv. step_at Hf. unfold op_jeq.
  destruct (Z.eqb_spec (fl c) FL_E); case_decide; try contradiction; [rewrite Hv|]; done.
Qed.

Lemma step_jeq_witness :
  let c := mk_cpu ([85; 2] ++ replicate 254 0) [0; 0; 9; 0; 0; 0; 0; 0] 0 0 FL_E in
  fetches c jeq 2 0 /\ reg_get c 2 = Ok 9 /\ step c = Ok (Next (set_pc c 9) None).
Proof.
  intros c. split; [repeat split|]. split; [reflexivity|].
  rewrite (step_jeq c 2 0 9); [reflexivity|repeat split|reflexivity].
Defined.

(** C5 (JNE): on JNE the next program counter is the value [v] of the
    operand register when the flag word is not [FL_E] (including the
    initial flag word 0), and [pc + 2] otherwise. *)
Theorem step_jne c a b v :
  fetches c jne a b -> reg_get c a = Ok v ->
  step c = Ok (Next (set_pc c (if decide (c.(fl) = FL_E) then c.(pc) + 2 else v)) None).
Proof.
  intros Hf Hv. step_at Hf. unfold op_jne.
  destruct (Z.eqb_spec (fl c) FL_E); case_decide; try contradiction; simpl; [|rewrite Hv]; done.
Qed.

Lemma step_jne_witness :
  let c := mk_cpu ([86; 2] ++ replicate 254 0) [0; 0; 9; 0; 0; 0; 0; 0] 0 0 FL_E in
  fetches c jne 2 0 /\ reg_get c 2 = Ok 9 /\ step c = Ok (Next (set_pc c 2) None).
Proof.
  intros c. split; [repeat split|]. split; [reflexivity|].
  rewrite (step_jne c 2 0 9); [reflexivity|repeat split|reflexivity].
Defined.

(** JMP always transfers control. *)
Lemma step_jmp c a b v :
  fetches c jmp a b -> reg_get c a = Ok v -> step c = Ok (Next (set_pc c v) None).
Proof. intros Hf Hv. step_at Hf. unfold op_jmp. by rewrite Hv. Qed.

(** C17 (LDI): LDI stores the operand word [b] itself in register [a]
    (when [a] is a valid index) and advances by 3; the other registers,
    memory, stack pointer and flags are unchanged. *)
Theorem step_ldi c a b x :
  fetches c ldi a b -> reg_get c a = Ok x ->
  exists c', step c = Ok (Next c' None) /\ reg_get c' a = Ok b /\ c'.(pc) = c.(pc) + 3 /\
    (forall j, py_norm (length c.(reg)) j <> py_norm (length c.(reg)) a ->
               reg_get c' j = reg_get c j) /\
    ram c' = ram c /\ sp c' = sp c /\ fl c' = fl c.
Proof.
  intros Hf Hx. step_at Hf. unfold op_ldi.
  destruct (reg_set_spec c a x b Hx) as (c1 & -> & H1 & H2 & _ & H3 & H4 & H5 & H6).
  eexists; split; [reflexivity|]. unfold reg_get in *. simpl. rewrite H4. repeat split; auto.
Qed.

Lemma step_ldi_witness :
  let c := mk_cpu ([130; 7; 200] ++ replicate 253 0) (replicate 8 0) 0 0 0 in
  fetches c ldi 7 200 /\ reg_get c 7 = Ok 0 /\
  exists c', step c = Ok (Next c' None) /\ reg_get c' 7 = Ok 200 /\ c'.(pc) = c.(pc) + 3.
Proof.
  intros c. split; [repeat split|]. split; [reflexivity|].
  destruct (step_ldi c 7 200 0) as (c' & H1 & H2 & H3 & _); [repeat split|reflexivity|].
  exists c'. auto.
Defined.

(** C18 (PRN): PRN prints the value of its operand register and advances
    by 2 without changing the state. *)
Theorem step_prn c a b v :
  fetches c prn a b -> reg_get c a = Ok v ->
  step c = Ok (Next (set_pc c (c.(pc) + 2)) (Some (Print v))).
Proof. intros Hf Hv. step_at Hf. unfold op_prn. by rewrite Hv. Qed.

Lemma step_prn_witness :
  let c := mk_cpu ([71; 3] ++ replicate 254 0) [0; 0; 0; 72; 0; 0; 0; 0] 0 0 0 in
  fetches c prn 3 0 /\ reg_get c 3 = Ok 72 /\
  step c = Ok (Next (set_pc c 2) (Some (Print 72))).
Proof.
  intros c. split; [repeat split|]. split; [reflexivity|].
  rewrite (step_prn c 3 0 72); [reflexivity|repeat split|reflexivity].
Defined.

(** C19 (POP): POP reads the cell above the stack pointer,
    [self.ram[sp + 1]], into register [a], then moves [sp] up by one and
    advances by 2; memory, the flags and the other registers are
    unchanged and nothing is printed. *)
Theorem step_pop c a b x v :
  fetches c pop a b -> ram_read c (c.(sp) + 1) = Ok v -> reg_get c a = Ok x ->
  exists c', step c = Ok (Next c' None) /\ reg_get c' a = Ok v /\
    c'.(sp) = c.(sp) + 1 /\ c'.(pc) = c.(pc) + 2 /\
    (forall j, py_norm (length c.(reg)) j <> py_norm (length c.(reg)) a ->
               reg_get c' j = reg_get c j) /\
    ram c' = ram c /\ fl c' = fl c.
Proof.
  intros Hf Hv Hx. step_at Hf. unfold op_pop. rewrite Hv. simpl.
  destruct (reg_set_spec c a x v Hx) as (c1 & -> & H1 & H2 & _ & H3 & H4 & H5 & H6).
  eexists; split; [reflexivity|]. unfold reg_get in *. simpl. repeat split; auto; lia.
Qed.

Lemma step_pop_witness :
  let c := mk_cpu ([70; 2; 0; 33] ++ replicate 252 0) (replicate 8 0) 0 2 0 in
  fetches c pop 2 0 /\ ram_read c (c.(sp) + 1) = Ok 33 /\ reg_get c 2 = Ok 0 /\
  exists c', step c = Ok (Next c' None) /\ reg_get c' 2 = Ok 33 /\ c'.(sp) = 3.
Proof.
  intros c. split; [repeat split|]. split; [reflexivity|]. split; [reflexivity|].
  destruct (step_pop c 2 0 0 33) as (c' & H1 & H2 & H3 & _); [repeat split|reflexivity..|].
  exists c'. auto.
Defined.

(** C30 (HLT): when HLT is fetched with both operand words inside memory
    the loop stops at once: for every positive fuel the run prints nothing
    and halts in the state it fetched HLT in. *)
Theorem run_hlt c a b n :
  fetches c hlt a b -> run (S n) c = ([], Halted c).
Proof. intros Hf. simpl. step_at Hf. reflexivity. Qed.

Lemma run_hlt_witness :
  let c := mk_cpu ([130; 0; 5; 1] ++ replicate 252 0) [5; 0; 0; 0; 0; 0; 0; 0] 3 0 0 in
  fetches c hlt 0 0 /\ run 10 c = ([], Halted c).
Proof. intros c. split; [repeat split|]. apply (run_hlt c 0 0 9). repeat split. Defined.

(** C9 (invalid opcode): when the fetched word is not one of the ten
    recognised opcodes, the run prints one diagnostic naming the word and
    exits with status 1, executing nothing else. *)
Theorem run_invalid c ir a b n :
  fetches c ir a b -> decode ir = None ->
  run (S n) c = ([Diagnostic ir], Exited 1).
Proof.
  intros Hf Hdec. simpl. rewrite (step_fetches _ _ _ _ Hf), dispatch_decode, Hdec.
  destruct Hf as (Hir & _). rewrite Hir. reflexivity.
Qed.

(** ADD (opcode 160) is such a word: the ALU's ["ADD"] is unreachable. *)
Lemma run_invalid_witness :
  let c := mk_cpu ([160; 0; 1] ++ replicate 253 0) (replicate 8 0) 0 0 0 in
  fetches c 160 0 1 /\ decode 160 = None /\ run 5 c = ([Diagnostic 160], Exited 1).
Proof.
  intros c. split; [repeat split|]. split; [reflexivity|].
  apply (run_invalid c 160 0 1 4); [repeat split|reflexivity].
Defined.

(** C14 (operand prefetch at the end of memory): with the program
    counter at 254 or 255 the loop reads [self.ram[256]] as an operand
    before looking at the opcode, so the step raises [IndexError] -- even
    when the opcode is HLT, which takes no operand. *)
Theorem step_past_end_crashes c :
  length c.(ram) = RAM_SIZE -> (c.(pc) = 254 \/ c.(pc) = 255) -> step c = Raise IndexError.
Proof.
  intros Hl Hpc. unfold step.
  assert (forall k, 256 <= k -> ram_read c k = Raise IndexError) as Hout.
  { intros k Hk. apply py_get_Raise, py_norm_None. rewrite Hl. unfold RAM_SIZE. lia. }
  destruct (py_get (ram c) (pc c)) as [ir|e] eqn:E1; simpl;
    [|by apply py_get_Raise_inv in E1 as ->].
  destruct Hpc as [Hpc|Hpc].
  - destruct (ram_read c (pc c + 1)) as [a|e] eqn:E2; simpl;
      [|by apply py_get_Raise_inv in E2 as ->].
    rewrite Hout by lia. reflexivity.
  - rewrite Hout by lia. reflexivity.
Qed.

Lemma step_past_end_crashes_witness :
  let c := mk_cpu (replicate 254 0 ++ [hlt; 0]) (replicate 8 0) 254 0 0 in
  py_get c.(ram) c.(pc) = Ok hlt /\ step c = Raise IndexError.
Proof.
  intros c. split; [reflexivity|]. apply step_past_end_crashes; [reflexivity|left; reflexivity].
Defined.

(** C15 (stack pointer): only PUSH and POP move the stack pointer, by -1
    and +1.  In particular an LDI into R7, the register [sp] was copied
    from, leaves [sp] alone. *)
Theorem step_sp c ir c' ev :
  py_get c.(ram) c.(pc) = Ok ir -> step c = Ok (Next c' ev) ->
  c'.(sp) = c.(sp) + (if ir =? push then -1 else if ir =? pop then 1 else 0).
Proof.
  intros Hir Hstep. destruct (step_Next_exec _ _ _ _ Hir Hstep) as (a & b & i & _ & -> & H).
  inv_spec exec_refines H; simpl;
    try (match goal with Ha : alu _ _ _ _ = Ok _ |- _ =>
           destruct (alu_frame _ _ _ _ _ Ha) as (_ & _ & ? & _) end);
    simpl; lia.
Qed.

Lemma step_sp_witness :
  let c := mk_cpu ([130; 7; 99] ++ replicate 253 0) (replicate 8 0) 0 0 0 in
  exists c', step c = Ok (Next c' None) /\ reg_get c' 7 = Ok 99 /\
    c'.(sp) = c.(sp) + (if ldi =? push then -1 else if ldi =? pop then 1 else 0).
Proof.
  intros c. eexists. split; [reflexivity|]. split; [reflexivity|].
  apply (step_sp c ldi _ None); reflexivity.
Defined.

(** C16 (where PUSH writes): PUSH stores the register's value in the cell
    [self.ram[sp]], with Python's negative-index wrap-around, and
    decrements [sp].  As [__init__] copies [sp] from R7, which is 0, the
    first PUSH of a run overwrites memory cell 0, the first word of the
    loaded program, and the next ones cells 255, 254, ... *)
Theorem step_push c a b v c' ev :
  fetches c push a b -> reg_get c a = Ok v -> step c = Ok (Next c' ev) ->
  py_get c'.(ram) c.(sp) = Ok v /\ c'.(sp) = c.(sp) - 1 /\ c'.(reg) = c.(reg) /\
  (forall j, py_norm (length c.(ram)) j <> py_norm (length c.(ram)) c.(sp) ->
             py_get c'.(ram) j = py_get c.(ram) j).
Proof.
  intros Hf Hv Hstep. rewrite (step_fetches _ _ _ _ Hf), dispatch_decode in Hstep.
  change (decode push) with (Some PUSH) in Hstep. cbv iota in Hstep.
  inv_spec exec_refines Hstep.
  match goal with Hv' : reg_get c a = Ok _ |- _ => rewrite Hv in Hv'; injection Hv' as <- end.
  simpl.
  split; [eapply py_get_set_eq; eauto|]. split; [done|]. split; [done|].
  intros j Hj. eapply py_get_set_ne; eauto.
Qed.

Lemma step_push_witness :
  let c := mk_cpu ([130; 0; 42; 69; 0] ++ replicate 251 0) (replicate 8 0) 0 0 0 in
  exists c1 c2, step c = Ok (Next c1 None) /\ step c1 = Ok (Next c2 None) /\
    fetches c1 push 0 0 /\ py_get c2.(ram) 0 = Ok 42 /\ c2.(sp) = -1.
Proof.
  intros c.
  pose (c1 := match step c with Ok (Next c1 _) => c1 | _ => c end).
  pose (c2 := match step c1 with Ok (Next c2 _) => c2 | _ => c end).
  assert (E1 : step c = Ok (Next c1 None)) by reflexivity.
  assert (E2 : step c1 = Ok (Next c2 None)) by reflexivity.
  assert (Hf : fetches c1 push 0 0) by (repeat split).
  exists c1, c2. do 3 (split; [assumption|]).
  destruct (step_push c1 0 0 42 c2 None Hf eq_refl E2) as (H1 & H2 & _).
  split; [exact H1|]. rewrite H2. reflexivity.
Defined.

(** A property preserved by every step holds in every reachable state. *)
Lemma reachable_preserved (P : cpu -> Prop) c0 c :
  (forall c1 c2, P c1 -> step_rel c1 c2 -> P c2) -> P c0 -> reachable c0 c -> P c.
Proof. intros Hstep H0. induction 1; eauto. Qed.

(** The loop body keeps the state well formed. *)
Lemma step_wf c c' ev : cpu_wf c -> step c = Ok (Next c' ev) -> cpu_wf c'.
Proof.
  intros Hwf (ir & a & b & i & _ & _ & Hb & _ & H)%step_Next_inv.
  eapply exec_wf; eauto. eapply cpu_wf_nonneg_ram; eauto.
Qed.

(** C11 (invariant): every state the loop reaches from a well-formed state
    is well formed: 256 memory cells and 8 registers, all non-negative,
    a non-negative program counter and a flag word in {0, 1, 2, 4}. *)
Theorem reachable_wf c0 c : cpu_wf c0 -> reachable c0 c -> cpu_wf c.
Proof.
  apply reachable_preserved. intros c1 c2 H Hs. inversion Hs; subst. eauto using step_wf.
Qed.

Lemma reachable_wf_witness :
  let c0 := mk_cpu ([130; 0; 8; 162; 0; 0] ++ replicate 250 0) (replicate 8 0) 0 0 0 in
  cpu_wf c0 /\ (exists c, reachable c0 c /\ reg_get c 0 = Ok 64 /\ cpu_wf c).
Proof.
  intros c0. assert (H0 : cpu_wf c0) by (apply (bool_decide_unpack _); vm_compute; exact I).
  split; [exact H0|].
  assert (Hr : exists c, reachable c0 c /\ reg_get c 0 = Ok 64).
  { eexists. split; [eapply reach_step; [eapply reach_step; [apply reach_refl|]|]|].
    - econstructor. reflexivity.
    - econstructor. reflexivity.
    - reflexivity. }
  destruct Hr as (c & Hr & Hc). exists c. split; [exact Hr|]. split; [exact Hc|].
  exact (reachable_wf c0 c H0 Hr).
Defined.

(** C13 (exceptions): the only exception a step can raise is [IndexError];
    in particular the ALU's [Exception("Unsupported ALU operation")] is
    unreachable, since [run] only passes ["MUL"] and ["CMP"]. *)
Theorem step_raise_index c e : step c = Raise e -> e = IndexError.
Proof.
  unfold step, dispatch, op_ldi, op_prn, op_mul, op_push, op_pop, op_cmp, op_jmp,
    op_jeq, op_jne, reg_get, reg_set, ram_read, ram_write.
  intros H. raise_inv; try done;
    match goal with Ha : alu ?op _ _ _ = Raise _ |- _ =>
      apply (alu_raise_index op) in Ha; [done|set_solver] end.
Qed.

Lemma step_raise_index_witness :
  let c := mk_cpu (replicate 254 0 ++ [hlt; 0]) (replicate 8 0) 254 0 0 in
  step c = Raise IndexError /\ IndexError = IndexError.
Proof.
  intros c. assert (H : step c = Raise IndexError) by reflexivity.
  split; [exact H|]. exact (step_raise_index c IndexError H).
Defined.

(** Once [run] ends with fuel [n] -- halted, exited or crashed -- it
    ends the same way, with the same output, for any larger fuel. *)
Lemma run_fuel_mono n m c :
  (n <= m)%nat -> (forall c', snd (run n c) <> OutOfFuel c') -> run m c = run n c.
Proof.
  revert m c. induction n as [|n IH]; intros m c Hle Hnf.
  - simpl in Hnf. by destruct (Hnf c).
  - destruct m as [|m]; [lia|]. simpl in *.
    destruct (step c) as [[c' ev|c'|code ev]|e]; try done.
    destruct (run n c') as [out o] eqn:E. simpl in Hnf.
    rewrite IH, E; [done|lia|]. rewrite E. done.
Qed.

Lemma run_halted_mono n m c out c' :
  run n c = (out, Halted c') -> (n <= m)%nat -> run m c = (out, Halted c').
Proof. intros H Hle. rewrite (run_fuel_mono n m c Hle); [done|]. rewrite H. discriminate. Qed.

(** C20 (non-termination): a JMP whose operand register holds the JMP's
    own address loops forever: for every fuel the run prints nothing and
    is still running in the same state. *)
Theorem jmp_self_diverges c a b :
  fetches c jmp a b -> reg_get c a = Ok c.(pc) -> forall n, run n c = ([], OutOfFuel c).
Proof.
  intros Hf Ha n. assert (Hs : step c = Ok (Next c None)).
  { rewrite (step_jmp c a b (pc c) Hf Ha). by destruct c. }
  induction n as [|n IH]; [done|]. simpl. rewrite Hs, IH. done.
Qed.

Lemma jmp_self_diverges_witness :
  let c := mk_cpu ([130; 1; 3; 84; 1] ++ replicate 251 0) [0; 3; 0; 0; 0; 0; 0; 0] 3 0 0 in
  fetches c jmp 1 0 /\ reg_get c 1 = Ok c.(pc) /\ run 1000 c = ([], OutOfFuel c).
Proof.
  intros c. split; [repeat split|]. split; [reflexivity|].
  apply (jmp_self_diverges c 1 0); [repeat split|reflexivity].
Defined.

End Engine.
