(* ===== verification/Loader.v ===== *)
(** * The program loader: [CPU.load] ([src/cpu.py], lines 22-54)

    [load] reads the file named by [sys.argv[1]] line by line.  A line
    holding ["#"] is cut at the first [" #"]; the rest is stripped of
    white space; when the result [isnumeric()], [int(binary_string, 2)] is
    appended to [program].  The words are then stored in [self.ram] from
    address 0 on.  [load] takes the lines the file iterator yields (each
    with its newline); [SourceFile.load_file] obtains them from
    [sys.argv[1]] and the file system.

    [parse_line] is the body of the [for line in f] loop, [parse_program]
    the loop, [load_words] the [for instruction in program] loop.  Strings
    are lists of ASCII characters; Python's [strip] and [isnumeric] also
    accept non-ASCII white space and digits, which the model leaves out. *)

From stdpp Require Import base list decidable strings.
From Stdlib Require Import ZArith Lia Ascii.
From S2P Require Import Prelude Machine.

Open Scope Z_scope.
Open Scope py_scope.

Module Loader.

(** Characters removed by [str.strip()] (the ASCII ones: those for which
    [str.isspace] holds, tab to carriage return, the separators 0x1C-0x1F
    and the space). *)
Definition is_space (ch : ascii) : bool :=
  match nat_of_ascii ch with
  | 9 | 10 | 11 | 12 | 13 | 28 | 29 | 30 | 31 | 32 => true
  | _ => false
  end%nat.

Fixpoint lstrip (s : list ascii) : list ascii :=
  match s with
  | [] => []
  | ch :: s' => if is_space ch then lstrip s' else s
  end.

(** [s.strip()] *)
Definition strip (s : list ascii) : list ascii := rev (lstrip (rev (lstrip s))).

(** ["#" in line] *)
Definition has_hash (s : list ascii) : bool := existsb (fun ch => Ascii.eqb ch "#") s.

(** [line.split(" #")[0]]: the text before the first [" #"]. *)
Fixpoint before_sep (s : list ascii) : list ascii :=
  match s with
  | [] => []
  | ch :: s' =>
      match s' with
      | ch2 :: _ => if Ascii.eqb ch " " && Ascii.eqb ch2 "#" then [] else ch :: before_sep s'
      | [] => [ch]
      end
  end.

Definition is_digit (ch : ascii) : bool :=
  (48 <=? nat_of_ascii ch)%nat && (nat_of_ascii ch <=? 57)%nat.

(** [s.isnumeric()]: non-empty and all digits. *)
Definition isnumeric (s : list ascii) : bool :=
  match s with [] => false | _ => forallb is_digit s end.

(** [int(s, 2)] on a string of digits: [ValueError] on a digit other
    than 0 and 1. *)
Fixpoint int_base2_acc (acc : Z) (s : list ascii) : res Z :=
  match s with
  | [] => Ok acc
  | ch :: s' =>
      if Ascii.eqb ch "0" then int_base2_acc (2 * acc) s'
      else if Ascii.eqb ch "1" then int_base2_acc (2 * acc + 1) s'
      else Raise ValueError
  end.

Definition int_base2 (s : list ascii) : res Z :=
  match s with [] => Raise ValueError | _ => int_base2_acc 0 s end.

(** The body of [for line in f]: [None] when nothing is appended. *)
Definition parse_line (line : string) : res (option Z) :=
  let l := String.list_ascii_of_string line in
  if (0 <? length l)%nat then
    let binary_string := if negb (has_hash l) then strip l else strip (before_sep l) in
    if isnumeric binary_string then
      let* integer_value := int_base2 binary_string in
      Ok (Some integer_value)
    else Ok None
  else Ok None.

(** [for line in f: ...; program.append(integer_value)] *)
Fixpoint parse_program (lines : list string) : res (list Z) :=
  match lines with
  | [] => Ok []
  | line :: rest =>
      let* w := parse_line line in
      let* program := parse_program rest in
      Ok (option_list w ++ program)
  end.

(** [for instruction in program: self.ram[address] = instruction; address += 1] *)
Fixpoint load_words (address : Z) (program : list Z) (c : cpu) : res cpu :=
  match program with
  | [] => Ok c
  | instruction :: rest =>
      let* r := py_set c.(ram) address instruction in
      load_words (address + 1) rest (set_ram c r)
  end.

Definition load (lines : list string) (c : cpu) : res cpu :=
  let* program := parse_program lines in
  load_words 0 program c.

(** ** Storing the program *)

Lemma load_words_frame program : forall a c c',
  load_words a program c = Ok c' ->
  reg c' = reg c /\ pc c' = pc c /\ sp c' = sp c /\ fl c' = fl c /\
  length c'.(ram) = length c.(ram).
Proof.
  induction program as [|w rest IH]; intros a c c' H; simpl in H; res_inv; [done|].
  apply IH in H as (-> & -> & -> & -> & ->). simpl. split_and!; eauto using py_set_length.
Qed.

Lemma load_words_ram program : forall (k : nat) c,
  (k + length program <= length c.(ram))%nat ->
  exists c', load_words (Z.of_nat k) program c = Ok c' /\
    c'.(ram) = take k c.(ram) ++ program ++ drop (k + length program) c.(ram).
Proof.
  induction program as [|w rest IH]; intros k c Hk; simpl in *.
  - eexists; split; [reflexivity|]. by rewrite Nat.add_0_r, take_drop.
  - rewrite (py_set_Some _ _ w k); [simpl|rewrite py_norm_nonneg by lia; by rewrite Nat2Z.id].
    destruct (IH (S k) (set_ram c (<[k:=w]> c.(ram)))) as (c' & Hc' & Hram);
      [simpl; rewrite length_insert; lia|].
    exists c'. rewrite Nat2Z.inj_succ, <- Z.add_1_r in Hc'. split; [exact Hc'|].
    rewrite Hram. simpl. rewrite insert_take_drop by lia.
    replace (take k (ram c) ++ w :: drop (S k) (ram c))
      with ((take k (ram c) ++ [w]) ++ drop (S k) (ram c)) by (rewrite <- app_assoc; done).
    rewrite take_app_length' by (rewrite length_app, length_take; simpl; lia).
    rewrite drop_app_ge by (rewrite length_app, length_take; simpl; lia).
    rewrite drop_drop, length_app, length_take, <- app_assoc. simpl.
    do 4 f_equal. lia.
Qed.

(** C23 (loading): a program of at most 256 words is stored at addresses
    0, 1, ... in order; the cells after it keep their contents and the
    registers, program counter, stack pointer and flags are untouched. *)
Theorem load_words_spec program c :
  (length program <= length c.(ram))%nat ->
  exists c', load_words 0 program c = Ok c' /\
    c'.(ram) = program ++ drop (length program) c.(ram) /\
    reg c' = reg c /\ pc c' = pc c /\ sp c' = sp c /\ fl c' = fl c.
Proof.
  intros H. destruct (load_words_ram program 0 c) as (c' & Hc' & Hr); [lia|].
  exists c'. split; [exact Hc'|]. rewrite Hr. split; [done|].
  apply load_words_frame in Hc' as (? & ? & ? & ? & _). auto.
Qed.

Lemma load_words_spec_witness :
  let c := mk_cpu (replicate 256 0) (replicate 8 0) 0 0 0 in
  exists c', load_words 0 [130; 0; 8] c = Ok c' /\
    c'.(ram) = [130; 0; 8] ++ drop 3 c.(ram) /\ reg c' = reg c.
Proof.
  intros c. destruct (load_words_spec [130; 0; 8] c) as (c' & H1 & H2 & H3 & _);
    [simpl; lia|].
  exists c'. auto.
Defined.

Lemma load_words_overflow_gen program : forall (k : nat) c,
  (k <= length c.(ram))%nat -> (length c.(ram) < k + length program)%nat ->
  load_words (Z.of_nat k) program c = Raise IndexError.
Proof.
  induction program as [|w rest IH]; intros k c Hk Hlt; simpl in *; [lia|].
  destruct (decide (k = length c.(ram))) as [->|Hne].
  - replace (py_set (ram c) _ w) with (@Raise (list Z) IndexError); [done|].
    symmetry. apply py_set_Raise, py_norm_None. lia.
  - rewrite (py_set_Some _ _ w k); [simpl|rewrite py_norm_nonneg by lia; by rewrite Nat2Z.id].
    replace (Z.of_nat k + 1) with (Z.of_nat (S k)) by lia.
    apply IH; simpl; rewrite length_insert; lia.
Qed.

(** C24 (loading, error): a program of more than 256 words makes the
    store [self.ram[256] = ...] raise [IndexError]. *)
Theorem load_words_overflow program c :
  (length c.(ram) < length program)%nat -> load_words 0 program c = Raise IndexError.
Proof. intros H. apply (load_words_overflow_gen program 0 c); lia. Qed.

Lemma load_words_overflow_witness :
  load_words 0 (replicate 257 1) (mk_cpu (replicate 256 0) (replicate 8 0) 0 0 0)
  = Raise IndexError.
Proof. apply load_words_overflow. simpl. lia. Defined.

(** ** Reading a source line *)

(** The [w] binary digits of [n], most significant first: how a word is
    written in an [.ls8] file. *)
Fixpoint bin_digits (w : nat) (n : Z) : list ascii :=
  match w with
  | O => []
  | S w' => (if Z.testbit n (Z.of_nat w') then "1" else "0")%char :: bin_digits w' n
  end.

(** A line of an [.ls8] file: eight digits, an optional [" #"] comment,
    and the newline the file iterator keeps. *)
Definition ls8_line (n : Z) (comment : option string) : string :=
  String.string_of_list_ascii
    (bin_digits 8 n ++
     match comment with Some t => [" "; "#"]%char ++ String.list_ascii_of_string t | None => [] end ++
     ["010"%char]).

Definition is_bin (ch : ascii) : Prop := ch = "0"%char \/ ch = "1"%char.

(** The positional value of a binary numeral, [sum d_i * 2^i]: the
    reference [int(s, 2)] is checked against. *)
Fixpoint bin_value (s : list ascii) : Z :=
  match s with
  | [] => 0
  | ch :: s' => (if Ascii.eqb ch "1" then 1 else 0) * 2 ^ Z.of_nat (length s') + bin_value s'
  end.

Lemma bin_digits_bin w n : Forall is_bin (bin_digits w n).
Proof.
  induction w; constructor; [|done]. unfold is_bin. case_match; auto.
Qed.

Lemma bin_digits_length w n : length (bin_digits w n) = w.
Proof. induction w; simpl; auto. Qed.

Lemma is_bin_not_space ch : is_bin ch -> is_space ch = false.
Proof. by intros [-> | ->]. Qed.

Lemma lstrip_not_space ch s : is_space ch = false -> lstrip (ch :: s) = ch :: s.
Proof. simpl. by intros ->. Qed.

Lemma lstrip_spaces ys zs : Forall (fun ch => is_space ch = true) ys -> lstrip (ys ++ zs) = lstrip zs.
Proof. induction 1 as [|y ys Hy _ IH]; simpl; [done|]. by rewrite Hy. Qed.

(** Stripping a word without white space followed by white space gives
    the word. *)
Lemma strip_word xs ys :
  xs <> [] -> Forall (fun ch => is_space ch = false) xs ->
  Forall (fun ch => is_space ch = true) ys -> strip (xs ++ ys) = xs.
Proof.
  intros Hne Hx Hy. unfold strip. destruct xs as [|x xs'] eqn:E; [done|].
  rewrite <- E in *.
  assert (lstrip (xs ++ ys) = xs ++ ys) as ->.
  { subst xs. simpl. apply Forall_cons in Hx as [Hx0 _]. by rewrite Hx0. }
  rewrite rev_app_distr, lstrip_spaces by (by apply Forall_rev).
  destruct (rev xs) as [|r rs] eqn:Er.
  - subst. by destruct xs'; simpl in Er; [|destruct (rev xs'); discriminate].
  - rewrite lstrip_not_space, <- Er, rev_involutive; [done|].
    apply Forall_rev in Hx. rewrite Er in Hx. by apply Forall_cons in Hx as [? _].
Qed.

Lemma bin_not_space xs : Forall is_bin xs -> Forall (fun ch => is_space ch = false) xs.
Proof. intros H. eapply Forall_impl; [exact H|]. apply is_bin_not_space. Qed.

Lemma strip_bin xs ys :
  xs <> [] -> Forall is_bin xs -> Forall (fun ch => is_space ch = true) ys -> strip (xs ++ ys) = xs.
Proof. intros ? ?%bin_not_space ?. by apply strip_word. Qed.

(** [line.split(" #")[0]] of binary digits followed by [" #..."] is the
    digits. *)
Lemma before_sep_bin xs ys :
  Forall is_bin xs -> before_sep (xs ++ " "%char :: "#"%char :: ys) = xs.
Proof.
  induction 1 as [|x xs Hx _ IH]; [done|]. simpl.
  destruct (xs ++ _) as [|ch2 rest] eqn:E; [by destruct xs|].
  rewrite IH. by destruct Hx as [-> | ->].
Qed.

Lemma has_hash_bin xs : Forall is_bin xs -> has_hash (xs ++ ["010"%char]) = false.
Proof.
  unfold has_hash. induction 1 as [|x xs Hx _ IH]; [done|]. simpl.
  destruct Hx as [-> | ->]; exact IH.
Qed.

Lemma isnumeric_bin xs : xs <> [] -> Forall is_bin xs -> isnumeric xs = true.
Proof.
  intros Hne Hx. destruct xs as [|x xs']; [done|]. unfold isnumeric.
  apply forallb_forall. intros ch Hin.
  rewrite Forall_forall in Hx. destruct (Hx ch) as [-> | ->]; [|done|done].
  by apply list_elem_of_In.
Qed.

(** [int(s, 2)] of the [w] digits of [n] is [n mod 2^w]. *)
Lemma int_base2_acc_bin_digits w : forall acc n,
  int_base2_acc acc (bin_digits w n) = Ok (acc * 2 ^ Z.of_nat w + n mod 2 ^ Z.of_nat w).
Proof.
  induction w as [|w IH]; intros acc n; simpl.
  - f_equal. rewrite Z.mod_1_r. lia.
  - pose proof (Z.pow_pos_nonneg 2 (Z.of_nat w) ltac:(lia) ltac:(lia)) as Hp.
    assert (n mod 2 ^ Z.of_nat (S w) =
            n mod 2 ^ Z.of_nat w + 2 ^ Z.of_nat w * ((n / 2 ^ Z.of_nat w) mod 2)) as Hm.
    { rewrite Nat2Z.inj_succ, Z.pow_succ_r, (Z.mul_comm 2) by lia. apply Z.rem_mul_r; lia. }
    pose proof (Z.mod_pos_bound (n / 2 ^ Z.of_nat w) 2 ltac:(lia)) as Hb.
    rewrite Z.testbit_eqb by lia.
    destruct (Z.eqb_spec ((n / 2 ^ Z.of_nat w) mod 2) 1) as [E|E]; simpl; rewrite IH;
      f_equal; rewrite Hm, Nat2Z.inj_succ, Z.pow_succ_r by lia; nia.
Qed.

(** The accumulating loop of [int(s, 2)] against the positional sum. *)
Lemma int_base2_acc_value s : forall acc,
  Forall is_bin s -> int_base2_acc acc s = Ok (acc * 2 ^ Z.of_nat (length s) + bin_value s).
Proof.
  induction s as [|ch s IH]; intros acc Hs; simpl; [f_equal; lia|].
  apply Forall_cons in Hs as [[-> | ->] Hs]; simpl; rewrite IH by done;
    f_equal; rewrite Nat2Z.inj_succ, Z.pow_succ_r by lia; lia.
Qed.

(** On a non-empty string of
    0/1 digits, [int(s, 2)] as [load] computes it (a left-to-right
    doubling accumulator) equals the positional value of the numeral. *)
Lemma int_base2_positional s :
  s <> [] -> Forall is_bin s -> int_base2 s = Ok (bin_value s).
Proof.
  intros Hne Hs. destruct s as [|ch s']; [done|]. unfold int_base2.
  by rewrite int_base2_acc_value.
Qed.

(** The text [load] hands to [isnumeric] and [int] for an [.ls8] line. *)
Lemma binary_string_ls8 n comment :
  let l := bin_digits 8 n ++
           match comment with
           | Some t => [" "; "#"]%char ++ String.list_ascii_of_string t | None => [] end ++
           ["010"%char] in
  (if negb (has_hash l) then strip l else strip (before_sep l)) = bin_digits 8 n.
Proof.
  intros l. subst l. pose proof (bin_digits_bin 8 n) as Hb.
  assert (bin_digits 8 n <> []) as Hne by (rewrite <- length_zero_iff_nil, bin_digits_length; lia).
  remember (bin_digits 8 n) as d eqn:Ed. clear Ed.
  destruct comment as [t|]; simpl.
  - assert (has_hash (d ++ " "%char :: "#"%char :: String.list_ascii_of_string t
                      ++ ["010"%char]) = true) as ->.
    { unfold has_hash. apply existsb_exists. exists "#"%char. split; [|done].
      apply in_or_app. right. simpl. auto. }
    simpl. rewrite before_sep_bin by done.
    transitivity (strip (d ++ [])); [by rewrite app_nil_r | apply strip_bin; auto].
  - rewrite has_hash_bin by done. simpl. apply strip_bin; auto.
Qed.

(** A line of an [.ls8] file holding the eight binary digits of a byte
    [n], with or without a [" # ..."] comment, is read back as [n]. *)
Theorem parse_line_ls8_line n comment :
  0 <= n < 256 -> parse_line (ls8_line n comment) = Ok (Some n).
Proof.
  intros Hn. unfold parse_line, ls8_line.
  rewrite String.list_ascii_of_string_of_list_ascii. cbv zeta.
  rewrite binary_string_ls8, length_app, bin_digits_length. simpl (0 <? _)%nat. cbv iota.
  pose proof (bin_digits_bin 8 n) as Hb.
  assert (bin_digits 8 n <> []) as Hne by (rewrite <- length_zero_iff_nil, bin_digits_length; lia).
  rewrite isnumeric_bin by done.
  unfold int_base2. destruct (bin_digits 8 n) eqn:E; [done|]. rewrite <- E.
  rewrite int_base2_acc_bin_digits. simpl. do 2 f_equal. apply Z.mod_small. lia.
Qed.

(** ** Lines [load] drops or rejects *)






Lemma digit_not_space ch : is_digit ch = true -> is_space ch = false.
Proof.
  unfold is_digit, is_space. intros [H1 _]%andb_true_iff. apply Nat.leb_le in H1.
  remember (nat_of_ascii ch) as k eqn:Ek. clear Ek.
  do 33 (destruct k as [|k]; [lia|]). reflexivity.
Qed.

Lemma has_hash_digits ds : Forall (fun ch => is_digit ch = true) ds ->
  has_hash (ds ++ ["010"%char]) = false.
Proof.
  unfold has_hash. induction 1 as [|ch ds Hch _ IH]; [done|]. simpl. rewrite IH, orb_false_r.
  destruct (Ascii.eqb_spec ch "#"); [subst; discriminate|done].
Qed.

Lemma int_base2_acc_raise acc ds : Exists (fun ch => ~ is_bin ch) ds ->
  int_base2_acc acc ds = Raise ValueError.
Proof.
  intros H. revert acc. induction H as [ch ds Hch|ch ds _ IH]; intros acc; simpl.
  - destruct (Ascii.eqb_spec ch "0"); [destruct Hch; left; done|].
    destruct (Ascii.eqb_spec ch "1"); [destruct Hch; right; done|done].
  - destruct (Ascii.eqb ch "0"); [apply IH|]. destruct (Ascii.eqb ch "1"); [apply IH|done].
Qed.

(** C27 (non-binary digits): a line of decimal digits that are not all 0
    and 1 passes [isnumeric()] and then makes [int(binary_string, 2)]
    raise [ValueError]: [load] crashes instead of reporting the line. *)
Theorem parse_line_value_error ds :
  ds <> [] -> Forall (fun ch => is_digit ch = true) ds -> Exists (fun ch => ~ is_bin ch) ds ->
  parse_line (String.string_of_list_ascii (ds ++ ["010"%char])) = Raise ValueError.
Proof.
  intros Hne Hd Hx. unfold parse_line. rewrite String.list_ascii_of_string_of_list_ascii.
  cbv zeta. rewrite length_app. simpl (0 <? _)%nat.
  replace (0 <? length ds + 1)%nat with true by (symmetry; apply Nat.ltb_lt; lia).
  rewrite has_hash_digits by done. simpl negb. cbv iota.
  rewrite strip_word; [| done | eapply Forall_impl; [exact Hd|]; apply digit_not_space |].
  2: { repeat constructor. }
  assert (isnumeric ds = true) as ->.
  { destruct ds; [done|]. unfold isnumeric. apply forallb_forall. intros ch Hin.
    rewrite Forall_forall in Hd. apply Hd. by apply list_elem_of_In. }
  unfold int_base2. destruct ds as [|ch ds']; [done|].
  rewrite (int_base2_acc_raise 0 (ch :: ds') Hx). reflexivity.
Qed.

Lemma parse_line_value_error_witness :
  parse_line (String.string_of_list_ascii (["1"; "2"]%char ++ ["010"%char])) = Raise ValueError.
Proof.
  apply parse_line_value_error; [discriminate | repeat constructor |].
  apply Exists_cons_tl, Exists_cons_hd. intros [H|H]; discriminate.
Defined.

End Loader.
