(* ===== verification/SourceFile.v ===== *)
(** * Opening the program file: [CPU.load] ([src/cpu.py], lines 22-30)

    [load] takes the file name from [sys.argv[1]] (an [IndexError] when
    the emulator is started without an argument), opens it in text mode (a
    [FileNotFoundError] when there is no such file) and iterates over its
    lines.  The file system is a finite map from names to contents
    ([gmap string (list ascii)]); [sys.argv] is a list of strings.

    Text mode reads with universal newlines: ["\r\n"] and a lone ["\r"]
    both become ["\n"] ([translate_newlines]); iterating over the file
    yields the lines with their ["\n"], the last one without it when the
    text does not end in a newline ([split_lines]).  [load_file] is the
    whole method: it hands those lines to [Loader.load].

    [ls8_text] writes a list of bytes as an [.ls8] file, one line of eight
    binary digits per byte; [load_file_ls8_text] shows that loading that
    file stores exactly those bytes from address 0. *)

From stdpp Require Import base list decidable strings gmap.
From Stdlib Require Import ZArith Lia Ascii.
From S2P Require Import Prelude Machine Loader.

Open Scope Z_scope.
Open Scope py_scope.

Module SourceFile.
Import Loader.

Definition LF : ascii := "010".
Definition CR : ascii := "013".

(** Universal newlines: ["\r\n"] and ["\r"] read as ["\n"]. *)
Fixpoint translate_newlines (s : list ascii) : list ascii :=
  match s with
  | [] => []
  | ch :: s' =>
      if Ascii.eqb ch CR then
        match s' with
        | ch2 :: s'' => if Ascii.eqb ch2 LF then LF :: translate_newlines s''
                        else LF :: translate_newlines s'
        | [] => [LF]
        end
      else ch :: translate_newlines s'
  end.

(** [for line in f]: the lines, each with its ["\n"]; [cur] holds the
    characters of the current line, last first. *)
Fixpoint split_lines_from (cur : list ascii) (s : list ascii) : list (list ascii) :=
  match s with
  | [] => match cur with [] => [] | _ => [rev cur] end
  | ch :: s' =>
      if Ascii.eqb ch LF then rev (ch :: cur) :: split_lines_from [] s'
      else split_lines_from (ch :: cur) s'
  end.

Definition split_lines (s : list ascii) : list (list ascii) := split_lines_from [] s.

(** The lines a text-mode file object yields. *)
Definition lines_of (text : list ascii) : list string :=
  map String.string_of_list_ascii (split_lines (translate_newlines text)).

(** [filename = sys.argv[1]; with open(filename) as f: ...; load] *)
Definition load_file (argv : list string) (fs : gmap string (list ascii)) (c : cpu) : res cpu :=
  let* filename := py_get argv 1 in
  match fs !! filename with
  | None => Raise FileNotFoundError
  | Some text => load (lines_of text) c
  end.

(** An [.ls8] file holding the bytes [ws], one per line, no comments. *)
Definition ls8_text (ws : list Z) : list ascii :=
  concat (map (fun w => String.list_ascii_of_string (ls8_line w None)) ws).

(** ** Reading lines back *)

Lemma translate_newlines_id s : CR ∉ s -> translate_newlines s = s.
Proof.
  induction s as [|ch s IH]; intros Hs; [done|]. simpl.
  destruct (Ascii.eqb_spec ch CR) as [->|]; [set_solver|]. f_equal. set_solver.
Qed.

Lemma split_lines_from_line cur l rest :
  LF ∉ l ->
  split_lines_from cur (l ++ LF :: rest) = (rev cur ++ l ++ [LF]) :: split_lines_from [] rest.
Proof.
  revert cur. induction l as [|ch l IH]; intros cur Hl; simpl.
  - reflexivity.
  - destruct (Ascii.eqb_spec ch LF) as [->|]; [set_solver|].
    rewrite IH by set_solver. simpl. by rewrite <- app_assoc.
Qed.

Lemma bin_digits_no_newline w n : (LF ∉ bin_digits w n) /\ (CR ∉ bin_digits w n).
Proof.
  pose proof (bin_digits_bin w n) as Hb. rewrite Forall_forall in Hb.
  split; intros Hin; by destruct (Hb _ Hin).
Qed.

Lemma ls8_line_chars w :
  String.list_ascii_of_string (ls8_line w None) = bin_digits 8 w ++ [LF].
Proof. unfold ls8_line. by rewrite String.list_ascii_of_string_of_list_ascii. Qed.

Lemma ls8_text_cons w ws : ls8_text (w :: ws) = bin_digits 8 w ++ LF :: ls8_text ws.
Proof. unfold ls8_text. cbn [map concat]. by rewrite ls8_line_chars, <- app_assoc. Qed.

Lemma lines_of_ls8_text ws : lines_of (ls8_text ws) = map (fun w => ls8_line w None) ws.
Proof.
  unfold lines_of. rewrite translate_newlines_id.
  - induction ws as [|w ws IH]; [done|]. rewrite ls8_text_cons. unfold split_lines.
    rewrite split_lines_from_line by apply bin_digits_no_newline. cbn [map rev app].
    unfold split_lines in IH. by rewrite IH.
  - induction ws as [|w ws IH]; [apply not_elem_of_nil|]. rewrite ls8_text_cons.
    pose proof (bin_digits_no_newline 8 w) as [_ Hc]. set_solver.
Qed.

Lemma parse_program_ls8 ws :
  Forall (fun w => 0 <= w < 256) ws -> parse_program (map (fun w => ls8_line w None) ws) = Ok ws.
Proof.
  induction 1 as [|w ws Hw _ IH]; [done|]. simpl.
  by rewrite parse_line_ls8_line, IH by done.
Qed.

(** ** What [load] does with a file *)

(** Opening an [.ls8] file of bytes hands exactly those bytes to the
    store loop. *)
Lemma load_file_ls8 argv fs name ws c :
  py_get argv 1 = Ok name -> fs !! name = Some (ls8_text ws) ->
  Forall (fun w => 0 <= w < 256) ws -> load_file argv fs c = load_words 0 ws c.
Proof.
  intros Harg Hfs Hws. unfold load_file. rewrite Harg. simpl. rewrite Hfs.
  unfold load. by rewrite lines_of_ls8_text, parse_program_ls8.
Qed.

(** C25 (file round trip): writing bytes [ws] as an [.ls8] file, one line
    of eight binary digits each, and starting the emulator on it stores
    exactly [ws] from address 0 when they fit in memory, and changes
    nothing else. *)
Theorem load_file_ls8_text argv fs name ws c :
  py_get argv 1 = Ok name -> fs !! name = Some (ls8_text ws) ->
  Forall (fun w => 0 <= w < 256) ws -> (length ws <= length c.(ram))%nat ->
  exists c', load_file argv fs c = Ok c' /\
    c'.(ram) = ws ++ drop (length ws) c.(ram) /\
    reg c' = reg c /\ pc c' = pc c /\ sp c' = sp c /\ fl c' = fl c.
Proof.
  intros Harg Hfs Hws Hlen. rewrite (load_file_ls8 argv fs name ws c) by done.
  destruct (load_words_ram ws 0 c) as (c' & Hc' & Hram); [lia|].
  exists c'. split; [exact Hc'|]. split; [exact Hram|].
  apply load_words_frame in Hc' as (? & ? & ? & ? & _). auto.
Qed.

Lemma load_file_ls8_text_witness :
  let fs : gmap string (list ascii) := {[ "print8.ls8"%string := ls8_text [130; 0; 8; 71; 0; 1] ]} in
  let c := mk_cpu (replicate 256 0) (replicate 8 0) 0 0 0 in
  exists c', load_file ["ls8.py"; "print8.ls8"]%string fs c = Ok c' /\
    take 6 c'.(ram) = [130; 0; 8; 71; 0; 1].
Proof.
  intros fs c.
  destruct (load_file_ls8_text ["ls8.py"; "print8.ls8"]%string fs "print8.ls8"%string
              [130; 0; 8; 71; 0; 1] c) as (c' & H & Hram & _);
    [reflexivity|reflexivity|repeat constructor; lia|simpl; lia|].
  exists c'. split; [exact H|]. by rewrite Hram.
Defined.

(** C33 (loader errors): started without a file argument the loader
    raises [IndexError] on [sys.argv[1]]; naming a file that does not
    exist raises [FileNotFoundError]; neither reads the file system
    further or touches the state. *)
Theorem load_file_errors argv fs c :
  ((length argv <= 1)%nat -> load_file argv fs c = Raise IndexError) /\
  (forall name, py_get argv 1 = Ok name -> fs !! name = None ->
     load_file argv fs c = Raise FileNotFoundError).
Proof.
  split.
  - intros Hl. unfold load_file. rewrite (proj2 (py_get_Raise argv 1)); [done|].
    apply py_norm_None. lia.
  - intros name Harg Hfs. unfold load_file. rewrite Harg. simpl. by rewrite Hfs.
Qed.

Lemma load_file_errors_witness :
  let c := mk_cpu (replicate 256 0) (replicate 8 0) 0 0 0 in
  load_file ["ls8.py"]%string ∅ c = Raise IndexError /\
  load_file ["ls8.py"; "missing.ls8"]%string ∅ c = Raise FileNotFoundError.
Proof.
  intros c. destruct (load_file_errors ["ls8.py"]%string ∅ c) as [H1 _].
  destruct (load_file_errors ["ls8.py"; "missing.ls8"]%string ∅ c) as [_ H2].
  split; [apply H1; simpl; lia|apply (H2 "missing.ls8"%string); reflexivity].
Defined.

End SourceFile.
