(* ===== verification/Trace.v ===== *)
(** * The debug dump: [CPU.trace] ([src/cpu.py], lines 74-92)

    [trace] builds the tuple [(pc, fl, ram[pc], ram[pc+1], ram[pc+2])]
    (the three memory reads may raise [IndexError]), formats it with the
    template ["TRACE: %02X | %02X %02X %02X |"] and prints the result, then
    prints [" %02X"] for each of the eight registers and a newline.

    Python's [%] operator is modelled by [py_format] for the one
    conversion the source uses, [%02X] (upper-case hexadecimal, zero padded
    to width 2 after the sign), written out by [fmt_0X].  A template whose
    conversions and arguments do not match raises [TypeError]; any other
    conversion is outside the model and raises [ValueError].  Printed text
    is a list of ASCII characters, the output of the [print] calls in
    order.

    The template has four conversions and the tuple five values -- the
    [# self.ie] line was commented out but [self.fl] was not -- so [trace]
    raises [TypeError] on every state whose three reads succeed and never
    prints anything.  [int_base16] is Python's [int(s, 16)], the reference
    inverse of [fmt_0X]. *)

From stdpp Require Import base list decidable strings.
From Stdlib Require Import ZArith Lia Ascii.
From S2P Require Import Prelude Machine Engine.

Open Scope Z_scope.
Open Scope py_scope.

Module Trace.
Import Memory Engine.

(** ** Hexadecimal formatting *)

(** The digit of [d] in [0, 15]: ['0'-'9'], then ['A'-'F']. *)
Definition hex_digit (d : Z) : ascii :=
  ascii_of_nat (Z.to_nat (if d <? 10 then 48 + d else 55 + d)).

(** The hexadecimal digits of [n >= 0], least significant first; [fuel]
    bounds the number of digits. *)
Fixpoint hex_rev (fuel : nat) (n : Z) : list ascii :=
  match fuel with
  | O => []
  | S f => hex_digit (n mod 16) :: (if n <? 16 then [] else hex_rev f (n / 16))
  end.

(** [n] has at most [log2 n + 1] hexadecimal digits. *)
Definition hex_fuel (n : Z) : nat := S (Z.to_nat (Z.log2 n)).

Definition to_hex (n : Z) : list ascii := rev (hex_rev (hex_fuel n) n).

(** ["%0<w>X" % v]: sign, zeros up to width [w], digits of [|v|]. *)
Definition fmt_0X (w : nat) (v : Z) : list ascii :=
  let sign := if v <? 0 then ["-"%char] else [] in
  let digits := to_hex (Z.abs v) in
  sign ++ replicate (w - length sign - length digits) "0"%char ++ digits.

(** ** Python's [fmt % args] *)

(** Each [%02X] consumes one argument; too few or too many arguments
    raise [TypeError]. *)
Fixpoint py_format (fmt : list ascii) (args : list Z) : res (list ascii) :=
  match fmt with
  | [] => match args with [] => Ok [] | _ :: _ => Raise TypeError end
  | ch :: rest =>
      if Ascii.eqb ch "%" then
        match rest with
        | c0 :: c2 :: cx :: rest' =>
            if Ascii.eqb c0 "0" && Ascii.eqb c2 "2" && Ascii.eqb cx "X" then
              match args with
              | [] => Raise TypeError
              | a :: args' =>
                  let* s := py_format rest' args' in
                  Ok (fmt_0X 2 a ++ s)
              end
            else Raise ValueError
        | _ => Raise ValueError
        end
      else
        let* s := py_format rest args in
        Ok (ch :: s)
  end.

(** The number of [%02X] conversions of a template, [None] when it holds
    another conversion. *)
Fixpoint count_specs (fmt : list ascii) : option nat :=
  match fmt with
  | [] => Some 0%nat
  | ch :: rest =>
      if Ascii.eqb ch "%" then
        match rest with
        | c0 :: c2 :: cx :: rest' =>
            if Ascii.eqb c0 "0" && Ascii.eqb c2 "2" && Ascii.eqb cx "X"
            then S <$> count_specs rest' else None
        | _ => None
        end
      else count_specs rest
  end.

(** ** [CPU.trace] *)

Definition trace_header_fmt : list ascii :=
  String.list_ascii_of_string "TRACE: %02X | %02X %02X %02X |".

Definition trace_reg_fmt : list ascii := String.list_ascii_of_string " %02X".

(** [for i in range(8): print(" %02X" % self.reg[i], end='')] *)
Fixpoint trace_regs (c : cpu) (idx : list nat) : list ascii * option exn :=
  match idx with
  | [] => ([], None)
  | i :: rest =>
      match (let* v := py_get c.(reg) (Z.of_nat i) in py_format trace_reg_fmt [v]) with
      | Raise e => ([], Some e)
      | Ok s => let '(out, e) := trace_regs c rest in (s ++ out, e)
      end
  end.

(** The text [trace] prints and the exception it raises, if any. *)
Definition trace (c : cpu) : list ascii * option exn :=
  let header :=
    let* a := ram_read c c.(pc) in
    let* b := ram_read c (c.(pc) + 1) in
    let* d := ram_read c (c.(pc) + 2) in
    py_format trace_header_fmt [c.(pc); c.(fl); a; b; d] in
  match header with
  | Raise e => ([], Some e)
  | Ok line =>
      match trace_regs c (seq 0 8) with
      | (out, Some e) => (line ++ out, Some e)
      | (out, None) => (line ++ out ++ ["010"%char], None)
      end
  end.

(** ** [int(s, 16)] *)

Definition hex_val (ch : ascii) : option Z :=
  let k := Z.of_nat (nat_of_ascii ch) in
  if (48 <=? k) && (k <=? 57) then Some (k - 48)
  else if (65 <=? k) && (k <=? 70) then Some (k - 55)
  else if (97 <=? k) && (k <=? 102) then Some (k - 87)
  else None.

Fixpoint int_base16_acc (acc : Z) (s : list ascii) : option Z :=
  match s with
  | [] => Some acc
  | ch :: s' => d ← hex_val ch; int_base16_acc (16 * acc + d) s'
  end.

Definition int_base16 (s : list ascii) : option Z :=
  match s with
  | [] => None
  | ch :: s' =>
      if Ascii.eqb ch "-" then
        match s' with [] => None | _ => Z.opp <$> int_base16_acc 0 s' end
      else int_base16_acc 0 s
  end.

(** ** Digits *)

Lemma hex_digit_val d : 0 <= d < 16 -> hex_val (hex_digit d) = Some d.
Proof.
  intros Hd. rewrite <- (Z2Nat.id d) by lia.
  assert (Hk : (Z.to_nat d < 16)%nat) by lia. revert Hk.
  generalize (Z.to_nat d) as k. intros k Hk.
  do 16 (destruct k as [|k]; [reflexivity|]). lia.
Qed.

Lemma hex_rev_S f n :
  hex_rev (S f) n = hex_digit (n mod 16) :: (if n <? 16 then [] else hex_rev f (n / 16)).
Proof. reflexivity. Qed.

Lemma hex_rev_Forall f n : Forall (fun ch => is_Some (hex_val ch)) (hex_rev f n).
Proof.
  revert n. induction f as [|f IH]; intros n; simpl; [constructor|].
  constructor; [rewrite hex_digit_val by (apply Z.mod_pos_bound; lia); by eexists|].
  destruct (n <? 16); [constructor|apply IH].
Qed.

Lemma int_base16_acc_app acc l1 l2 :
  int_base16_acc acc (l1 ++ l2) = int_base16_acc acc l1 ≫= (fun a => int_base16_acc a l2).
Proof.
  revert acc. induction l1 as [|ch l1 IH]; intros acc; simpl; [done|].
  destruct (hex_val ch); simpl; [apply IH|done].
Qed.

Lemma int_base16_acc_zeros k s :
  int_base16_acc 0 (replicate k "0"%char ++ s) = int_base16_acc 0 s.
Proof. induction k as [|k IH]; [done|]. exact IH. Qed.

(** With enough fuel, the digits read back as [n]. *)
Lemma hex_rev_value f n :
  0 <= n < 16 ^ Z.of_nat f -> int_base16_acc 0 (rev (hex_rev f n)) = Some n.
Proof.
  revert n. induction f as [|f IH]; intros n Hn; [simpl in *; f_equal; lia|].
  rewrite hex_rev_S. simpl rev.
  assert (Hd : hex_val (hex_digit (n mod 16)) = Some (n mod 16))
    by (apply hex_digit_val, Z.mod_pos_bound; lia).
  destruct (Z.ltb_spec n 16) as [Hlt|Hge]; simpl.
  - rewrite Hd. simpl. f_equal. rewrite Z.mod_small; lia.
  - rewrite int_base16_acc_app, IH; simpl.
    + rewrite Hd. simpl. f_equal. pose proof (Z.div_mod n 16). lia.
    + rewrite Nat2Z.inj_succ, Z.pow_succ_r in Hn by lia.
      split; [apply Z.div_pos; lia|]. apply Z.div_lt_upper_bound; lia.
Qed.

Lemma hex_fuel_enough n : 0 <= n -> n < 16 ^ Z.of_nat (hex_fuel n).
Proof.
  intros Hn. unfold hex_fuel. rewrite Nat2Z.inj_succ, Z2Nat.id by apply Z.log2_nonneg.
  destruct (Z.eq_dec n 0) as [->|Hn0]; [simpl; lia|].
  apply Z.lt_le_trans with (2 ^ Z.succ (Z.log2 n)).
  - apply Z.log2_spec. lia.
  - apply Z.pow_le_mono_l. lia.
Qed.

Lemma to_hex_value n : 0 <= n -> int_base16_acc 0 (to_hex n) = Some n.
Proof. intros Hn. apply hex_rev_value. split; [done|]. by apply hex_fuel_enough. Qed.

Lemma to_hex_cons n : exists ch s, to_hex n = ch :: s /\ is_Some (hex_val ch).
Proof.
  unfold to_hex, hex_fuel. pose proof (hex_rev_Forall (S (Z.to_nat (Z.log2 n))) n) as Hf.
  rewrite hex_rev_S in *. simpl rev in *.
  destruct (rev _) as [|ch s] eqn:E; simpl.
  - exists (hex_digit (n mod 16)), []. split; [done|]. by inversion Hf.
  - exists ch, (s ++ [hex_digit (n mod 16)]). split; [done|].
    apply Forall_cons_1 in Hf as [_ Hf]. destruct (n <? 16); [done|].
    apply Forall_rev in Hf. rewrite E in Hf. by inversion Hf.
Qed.

(** A string starting with a hexadecimal digit has no sign. *)
Lemma int_base16_unsigned ch s :
  is_Some (hex_val ch) -> int_base16 (ch :: s) = int_base16_acc 0 (ch :: s).
Proof.
  intros Hch. unfold int_base16. destruct (Ascii.eqb_spec ch "-"); [|done].
  subst. by destruct Hch.
Qed.

Lemma int_base16_signed s :
  s <> [] -> int_base16 ("-"%char :: s) = Z.opp <$> int_base16_acc 0 s.
Proof. by destruct s. Qed.

(** ** Digit counts *)

Lemma to_hex_length_small n : 0 <= n < 16 -> length (to_hex n) = 1%nat.
Proof.
  intros Hn. unfold to_hex, hex_fuel. rewrite length_rev, hex_rev_S.
  by destruct (Z.ltb_spec n 16); [|lia].
Qed.

Lemma log2_fuel n k : 2 ^ Z.of_nat k <= n -> exists f, Z.to_nat (Z.log2 n) = (k + f)%nat.
Proof.
  intros Hn. exists (Z.to_nat (Z.log2 n) - k)%nat.
  enough (Z.of_nat k <= Z.log2 n) by lia.
  rewrite <- (Z.log2_pow2 (Z.of_nat k)) by lia. by apply Z.log2_le_mono.
Qed.

Lemma to_hex_length_byte n : 16 <= n < 256 -> length (to_hex n) = 2%nat.
Proof.
  intros Hn. unfold to_hex, hex_fuel. rewrite length_rev.
  destruct (log2_fuel n 4) as (f & ->); [simpl; lia|]. simpl.
  destruct (Z.ltb_spec n 16); [lia|]. simpl.
  destruct (Z.ltb_spec (n / 16) 16); [done|].
  enough (n / 16 < 16) by lia. apply Z.div_lt_upper_bound; lia.
Qed.

Lemma to_hex_length_wide n : 256 <= n -> (3 <= length (to_hex n))%nat.
Proof.
  intros Hn. unfold to_hex, hex_fuel. rewrite length_rev.
  destruct (log2_fuel n 8) as (f & ->); [simpl; lia|]. simpl.
  destruct (Z.ltb_spec n 16); [lia|]. simpl.
  destruct (Z.ltb_spec (n / 16) 16) as [Hlt|]; [|simpl; lia].
  enough (16 <= n / 16) by lia. apply Z.div_le_lower_bound; lia.
Qed.

(** ** Python's [%] on [%02X] templates *)

Lemma py_format_arity_gen k : forall fmt args n,
  (length fmt < k)%nat -> count_specs fmt = Some n ->
  (length args = n -> exists s, py_format fmt args = Ok s) /\
  (length args <> n -> py_format fmt args = Raise TypeError).
Proof.
  induction k as [|k IH]; intros fmt args n Hk Hc; [lia|].
  destruct fmt as [|ch rest]; simpl in Hc |- *.
  { injection Hc as <-. destruct args; simpl; split; intros; eauto; done. }
  destruct (Ascii.eqb ch "%").
  - destruct rest as [|c0 [|c2 [|cx rest']]]; try discriminate.
    destruct (_ && _ && _); [|discriminate].
    destruct (count_specs rest') as [m|] eqn:Hm; simpl in Hc; [|discriminate].
    injection Hc as <-. simpl in Hk.
    destruct args as [|a args']; simpl; [split; intros; [lia|done]|].
    destruct (IH rest' args' m) as [Hok Herr]; [lia|done|].
    split; intros Hl.
    + destruct Hok as [s Hs]; [lia|]. rewrite Hs. eauto.
    + rewrite Herr by lia. done.
  - simpl in Hk. destruct (IH rest args n) as [Hok Herr]; [lia|done|].
    split; intros Hl.
    + destruct (Hok Hl) as [s ->]. eauto.
    + by rewrite Herr.
Qed.

(** A [%02X] template applied to a number of
    arguments other than its number of conversions raises [TypeError]
    (both "not enough arguments" and "not all arguments converted"), and
    with the right number it succeeds. *)
Lemma py_format_arity fmt args n :
  count_specs fmt = Some n ->
  ((length args = n -> exists s, py_format fmt args = Ok s) /\
   (length args <> n -> py_format fmt args = Raise TypeError)).
Proof. intros Hc. by apply (py_format_arity_gen (S (length fmt))); [lia|]. Qed.

(** ** Round trip and width of [%02X] *)

(** Python's [int(s, 16)] reads back every integer
    formatted by [%0<w>X], negative ones and zero padding included. *)
Lemma fmt_0X_roundtrip w v : int_base16 (fmt_0X w v) = Some v.
Proof.
  unfold fmt_0X. destruct (to_hex_cons (Z.abs v)) as (ch & s & Hs & Hch).
  destruct (Z.ltb_spec v 0) as [Hneg|Hpos]; cbn [app length].
  - rewrite int_base16_signed by (rewrite Hs; destruct replicate; discriminate).
    rewrite int_base16_acc_zeros, to_hex_value by lia. simpl. f_equal; lia.
  - destruct (w - 0 - length (to_hex (Z.abs v)))%nat as [|k]; cbn [replicate app].
    + rewrite Hs, int_base16_unsigned, <- Hs, to_hex_value by (done || lia). f_equal; lia.
    + rewrite int_base16_unsigned by (by eexists).
      change ("0"%char :: replicate k "0"%char ++ to_hex (Z.abs v))
        with (replicate (S k) "0"%char ++ to_hex (Z.abs v)).
      rewrite int_base16_acc_zeros, to_hex_value by lia. f_equal; lia.
Qed.

(** [%02X] of a non-negative value prints exactly two
    characters if and only if the value fits in a byte; a register holding
    a MUL result of 256 or more widens its column of the dump. *)
Lemma fmt_02X_width v : 0 <= v -> (length (fmt_0X 2 v) = 2%nat <-> v < 256).
Proof.
  intros Hv. unfold fmt_0X. destruct (Z.ltb_spec v 0); [lia|].
  rewrite Z.abs_eq by done. simpl. rewrite length_app, length_replicate.
  destruct (Z_lt_le_dec v 16); [rewrite to_hex_length_small by lia; lia|].
  destruct (Z_lt_le_dec v 256); [rewrite to_hex_length_byte by lia; lia|].
  pose proof (to_hex_length_wide v). lia.
Qed.

(** ** What [trace] does *)

(** C28 (trace never prints): on every state [trace] raises before its
    first [print]: [TypeError] from the five-value tuple, or [IndexError]
    from one of its three memory reads. *)
Theorem trace_never_prints c :
  trace c = ([], Some TypeError) \/ trace c = ([], Some IndexError).
Proof.
  unfold trace.
  destruct (ram_read c (pc c)) eqn:E1; simpl;
    [|apply py_get_Raise_inv in E1 as ->; by right].
  destruct (ram_read c (pc c + 1)) eqn:E2; simpl;
    [|apply py_get_Raise_inv in E2 as ->; by right].
  destruct (ram_read c (pc c + 2)) eqn:E3; simpl;
    [|apply py_get_Raise_inv in E3 as ->; by right].
  left. reflexivity.
Qed.

(** C29 (trace on a fetchable state): when the loop could fetch an
    instruction and its two operand words, [trace] raises [TypeError]. *)
Theorem trace_type_error c ir a b :
  fetches c ir a b -> trace c = ([], Some TypeError).
Proof.
  intros (H1 & H2 & H3). unfold trace. unfold ram_read at 1.
  rewrite H1, H2, H3. reflexivity.
Qed.

Lemma trace_type_error_witness :
  let c := mk_cpu ([130; 0; 8] ++ replicate 253 0) (replicate 8 0) 0 0 0 in
  fetches c 130 0 8 /\ trace c = ([], Some TypeError).
Proof.
  intros c. split; [repeat split|]. apply (trace_type_error c 130 0 8). repeat split.
Defined.

End Trace.
