(* ===== verification/Semantics.v ===== *)
(** * The loop as a relation: [CPU.run] ([src/cpu.py], lines 94-150)

    [Engine.run] iterates the loop body with a fuel bound.  [exec_loop c
    out o] is the loop written as an inductive big-step relation, in the
    style of a labelled transition system: from [c] the loop prints [out]
    and ends with [o] ([HLT], [sys.exit(1)] or an exception).  It has no
    fuel and no [OutOfFuel] outcome.

    [run_exec_loop] shows the two agree: a terminating run of the relation
    is a run of [run] for some fuel, and every fuel-bounded run that ends
    is a derivation of the relation.  Consequences: the loop is
    deterministic ([exec_loop_det]) and the state of a halted run was
    reached by the step relation, so it is well formed when the start
    state is ([exec_loop_halted_wf]).

    [straight_line] describes a memory with none of the opcodes that can
    send [pc] backwards (JMP, JEQ, JNE) or change memory (PUSH); on such a
    memory every iteration moves [pc] forwards, so [256 - pc] is a measure
    and the loop ends within [257 - pc] iterations
    ([straight_line_terminates]). *)

From stdpp Require Import base list decidable strings sets.
From Stdlib Require Import ZArith Lia.
From S2P Require Import Prelude Machine Alu Decode Engine.

Open Scope Z_scope.

Module Semantics.
Import Memory Alu Opcodes Engine.

Inductive exec_loop : cpu -> list event -> outcome -> Prop :=
| loop_halt c c' : step c = Ok (Break c') -> exec_loop c [] (Halted c')
| loop_exit c code ev : step c = Ok (SysExit code ev) -> exec_loop c [ev] (Exited code)
| loop_crash c e : step c = Raise e -> exec_loop c [] (Crashed e)
| loop_next c c' ev out o :
    step c = Ok (Next c' ev) -> exec_loop c' out o ->
    exec_loop c (option_list ev ++ out) o.

(** A memory image in which no word is the opcode of JMP, JEQ, JNE or
    PUSH: the instructions that move [pc] backwards or write memory. *)
Definition straight_line (mem : list Z) : bool :=
  forallb (fun w => negb (bool_decide (w ∈ [jmp; jeq; jne; push]))) mem.

Lemma exec_loop_not_out_of_fuel c out o : exec_loop c out o -> forall c', o <> OutOfFuel c'.
Proof. induction 1; congruence. Qed.

Lemma exec_loop_run c out o : exec_loop c out o -> exists n, run n c = (out, o).
Proof.
  induction 1 as [c c' H|c code ev H|c e H|c c' ev out o H _ (n & IH)];
    [exists 1%nat ..|exists (S n)]; simpl; rewrite ?H; [done..|]. by rewrite IH.
Qed.

Lemma run_exec_loop_gen n : forall c out o,
  run n c = (out, o) -> (forall c', o <> OutOfFuel c') -> exec_loop c out o.
Proof.
  induction n as [|n IH]; intros c out o Hrun Hnf; simpl in Hrun.
  - injection Hrun as <- <-. by destruct (Hnf c).
  - destruct (step c) as [[c' ev|c'|code ev]|e] eqn:Hs; try (injection Hrun as <- <-);
      [|by constructor..].
    destruct (run n c') as [out' o'] eqn:Hr. injection Hrun as <- <-.
    eapply loop_next; [exact Hs|]. by apply IH.
Qed.

(** [break] leaves the loop in the state it was entered with. *)
Lemma step_Break c c' : step c = Ok (Break c') -> c' = c.
Proof.
  intros (ir & a & b & _ & _ & _ & H)%step_Ok_inv. rewrite dispatch_decode in H.
  destruct (decode ir) as [[]|]; simpl in H;
    unfold op_ldi, op_prn, op_mul, op_cmp, op_push, op_pop, op_jmp, op_jeq, op_jne in H;
    repeat case_match; res_inv; congruence.
Qed.

(** A step in front of a reachable state. *)
Lemma reachable_cons c c1 c' : step_rel c c1 -> reachable c1 c' -> reachable c c'.
Proof.
  intros Hs. induction 1 as [|c2 c3 _ IH Hs2]; [|eapply reach_step; eauto].
  eapply reach_step; [apply reach_refl|exact Hs].
Qed.

Lemma exec_loop_reachable c out c' : exec_loop c out (Halted c') -> reachable c c'.
Proof.
  remember (Halted c') as o eqn:Ho. induction 1; subst; try discriminate.
  - injection Ho as <-. apply step_Break in H as ->. apply reach_refl.
  - eapply reachable_cons; [econstructor; eassumption|auto].
Qed.

(** ** The relation and the fuel-bounded loop agree *)

(** The loop ends with output
    [out] and outcome [o] in the big-step relation exactly when [run]
    returns [(out, o)] for some fuel and [o] is not the fuel-exhausted
    outcome. *)
Lemma run_exec_loop c out o :
  exec_loop c out o <->
  (exists n, run n c = (out, o)) /\ (forall c', o <> OutOfFuel c').
Proof.
  split.
  - intros H. split; [by apply exec_loop_run|by eapply exec_loop_not_out_of_fuel].
  - intros [[n Hn] Hnf]. by eapply run_exec_loop_gen.
Qed.

(** The loop has one behaviour: two terminating
    executions from the same state print the same lines and end alike. *)
Lemma exec_loop_det c out1 o1 out2 o2 :
  exec_loop c out1 o1 -> exec_loop c out2 o2 -> out1 = out2 /\ o1 = o2.
Proof.
  intros H1. revert out2 o2.
  induction H1 as [c c' H|c code ev H|c e H|c c' ev out o H _ IH];
    intros out2 o2 H2; inversion H2; subst;
    match goal with H' : step c = _ |- _ => rewrite H in H' end; try discriminate;
    try (split; congruence).
  match goal with H' : Ok _ = Ok (Next _ _) |- _ => injection H' as <- <- end.
  by destruct (IH _ _ ltac:(eassumption)) as [-> ->].
Qed.

(** When the loop halts on HLT from
    a well-formed state, the final state satisfies [cpu_wf]. *)
Lemma exec_loop_halted_wf c out c' :
  cpu_wf c -> exec_loop c out (Halted c') -> cpu_wf c'.
Proof.
  intros Hwf H. remember (Halted c') as o eqn:Ho. revert Hwf.
  induction H; intros Hwf; subst; try discriminate.
  - injection Ho as <-. by apply step_Break in H as ->.
  - eauto using step_wf.
Qed.

(** ** Termination of jump-free programs *)

Lemma straight_line_word mem i w :
  straight_line mem = true -> py_get mem i = Ok w -> w ∉ [jmp; jeq; jne; push].
Proof.
  unfold straight_line. rewrite forallb_forall.
  intros Hm (k & _ & Hk)%py_get_Ok_inv.
  specialize (Hm w (proj1 (list_elem_of_In _ _) (list_elem_of_lookup_2 _ _ _ Hk))).
  by apply negb_true_iff, bool_decide_eq_false in Hm.
Qed.

(** An iteration on an opcode other than JMP, JEQ, JNE and PUSH leaves
    memory alone and moves [pc] forwards. *)
Lemma step_forward c c' ev ir :
  py_get c.(ram) c.(pc) = Ok ir -> ir ∉ [jmp; jeq; jne; push] ->
  step c = Ok (Next c' ev) -> ram c' = ram c /\ pc c < pc c'.
Proof.
  intros Hir Hnot Hstep.
  destruct (step_Next_exec _ _ _ _ Hir Hstep) as (a & b & i & _ & -> & Hexec).
  apply exec_refines in Hexec. inversion Hexec; subst;
    try (exfalso; apply Hnot; cbn; set_solver);
    try match goal with Ha : alu _ _ _ _ = Ok _ |- _ =>
          apply alu_frame in Ha as (? & _ & _ & _) end;
    simpl; split; try done; lia.
Qed.

(** One iteration of [run], the rest of the loop left folded. *)
Lemma snd_run_S n c :
  snd (run (S n) c) =
    match step c with
    | Raise e => Crashed e
    | Ok (Break c') => Halted c'
    | Ok (SysExit code _) => Exited code
    | Ok (Next c' _) => snd (run n c')
    end.
Proof. simpl. destruct (step c) as [[c' ev|c'|code ev]|e]; [|done..]. by destruct (run n c'). Qed.

Lemma straight_line_run n c :
  straight_line c.(ram) = true -> 0 <= c.(pc) ->
  (Z.to_nat (Z.of_nat (length c.(ram)) - c.(pc)) <= n)%nat ->
  forall c', snd (run (S n) c) <> OutOfFuel c'.
Proof.
  revert c. induction n as [|n IH]; intros c Hm Hpc Hn c'; rewrite snd_run_S;
    destruct (step c) as [[c1 ev|c1|code ev]|e] eqn:Hs; try discriminate;
    pose proof Hs as (ir & _ & _ & Hir & _)%step_Ok_inv;
    destruct (step_forward _ _ _ _ Hir (straight_line_word _ _ _ Hm Hir) Hs) as [Hr Hlt];
    apply py_get_Ok_inv in Hir as (k & Hk%py_norm_Some_inv & _); [lia|].
  rewrite <- Hr in Hm. apply IH; [done|lia|]. rewrite Hr. lia.
Qed.


(** C21 (termination without jumps): from a well-formed state whose
    memory holds no JMP, JEQ, JNE or PUSH opcode, the loop terminates --
    it halts, exits or raises -- within [257 - pc] iterations: each
    iteration moves [pc] forwards over a memory that never changes. *)
Theorem straight_line_terminates c :
  cpu_wf c -> straight_line c.(ram) = true ->
  exists out o, exec_loop c out o /\ run (S (Z.to_nat (256 - c.(pc)))) c = (out, o).
Proof.
  intros (Hlen & _ & _ & _ & Hpc & _) Hm.
  destruct (run (S (Z.to_nat (256 - c.(pc)))) c) as [out o] eqn:Hrun.
  exists out, o. split; [|done].
  apply (run_exec_loop_gen _ _ _ _ Hrun). intros c'.
  pose proof (straight_line_run (Z.to_nat (256 - c.(pc))) c Hm Hpc) as H.
  rewrite Hlen in H. rewrite Hrun in H. apply H. unfold RAM_SIZE. lia.
Qed.

Lemma straight_line_terminates_witness :
  let c := mk_cpu ([130; 0; 8; 71; 0; 1] ++ replicate 250 0) (replicate 8 0) 0 0 0 in
  cpu_wf c /\ straight_line c.(ram) = true /\
  exists out o, exec_loop c out o /\ run 257 c = (out, o).
Proof.
  intros c. assert (Hwf : cpu_wf c) by (apply (bool_decide_unpack _); vm_compute; exact I).
  assert (Hm : straight_line c.(ram) = true) by reflexivity.
  split; [exact Hwf|]. split; [exact Hm|].
  exact (straight_line_terminates c Hwf Hm).
Defined.

End Semantics.
