(* ===== verification/Programs.v ===== *)
(** * Whole runs: [CPU()], [load()], [run()]

    The entry point of the repository ([ls8.py], not under [src/]) builds
    a [CPU], loads the file named on the command line and runs it.  [boot]
    composes [CPU_init], [SourceFile.load_file] and [Engine.run] in that
    order, for a command line [argv] and a file system [fs].  The theorems
    of this file are the invariant [cpu_wf] on every state a booted
    program reaches, and three programs -- the spec's multiplication and
    JEQ scenarios and an exchange through the stack -- loaded from an
    [.ls8] file and run, for every value of their operand bytes. *)

From stdpp Require Import base list decidable strings gmap.
From Stdlib Require Import ZArith Lia Ascii.
From S2P Require Import Prelude Machine Alu Decode Engine Loader SourceFile.

Open Scope Z_scope.
Open Scope py_scope.

Module Programs.
Import Opcodes Memory RegisterFile Alu Loader SourceFile Engine.

(** [cpu = CPU(); cpu.load()]: the state [run] starts from, for the
    command line [argv] and the file system [fs]. *)
Definition boot_state (argv : list string) (fs : gmap string (list ascii)) : res cpu :=
  let* c := CPU_init in load_file argv fs c.

(** [cpu = CPU(); cpu.load(); cpu.run()] *)
Definition boot (argv : list string) (fs : gmap string (list ascii)) (fuel : nat)
    : list event * outcome :=
  match boot_state argv fs with
  | Raise e => ([], Crashed e)
  | Ok c => run fuel c
  end.

(** [python3 ls8.py <name>] *)
Definition command (name : string) : list string := ["ls8.py"; name].

(** A file system holding one [.ls8] file [name] with the bytes [ws],
    one line of eight binary digits each. *)
Definition ls8_file (name : string) (ws : list Z) : gmap string (list ascii) :=
  {[ name := ls8_text ws ]}.

(** [examples/mult.ls8] with the factors [v] and [w] (8 and 9 in the
    spec's scenario 6). *)
Definition mult_program (v w : Z) : list Z :=
  [ldi; 0; v;        (* 0: LDI R0,v *)
   ldi; 1; w;        (* 3: LDI R1,w *)
   mul; 0; 1;        (* 6: MUL R0,R1 *)
   prn; 0;           (* 9: PRN R0 *)
   hlt].             (* 11: HLT *)

(** The spec's scenario 7: CMP of R0 = [v] and R1 = [w], then JEQ to the
    address 15 held in R2, which prints R0; the fall-through at 14 halts. *)
Definition branch_program (v w : Z) : list Z :=
  [ldi; 0; v;        (* 0: LDI R0,v *)
   ldi; 1; w;        (* 3: LDI R1,w *)
   ldi; 2; 15;       (* 6: LDI R2,15 *)
   cmp; 0; 1;        (* 9: CMP R0,R1 *)
   jeq; 2;           (* 12: JEQ R2 *)
   hlt;              (* 14: HLT *)
   prn; 0;           (* 15: PRN R0 *)
   hlt].             (* 17: HLT *)

(** Exchanging two registers through the stack. *)
Definition swap_program (v w : Z) : list Z :=
  [ldi; 0; v;        (* 0: LDI R0,v *)
   ldi; 1; w;        (* 3: LDI R1,w *)
   push; 0;          (* 6: PUSH R0 *)
   push; 1;          (* 8: PUSH R1 *)
   pop; 0;           (* 10: POP R0 *)
   pop; 1;           (* 12: POP R1 *)
   prn; 0;           (* 14: PRN R0 *)
   prn; 1;           (* 16: PRN R1 *)
   hlt].             (* 18: HLT *)

(** ** Every booted state is well formed *)

Lemma int_base2_acc_nonneg s : forall acc v,
  0 <= acc -> int_base2_acc acc s = Ok v -> 0 <= v.
Proof.
  induction s as [|ch s IH]; intros acc v Hacc H; simpl in H; [injection H as <-; lia|].
  destruct (Ascii.eqb ch "0"); [|destruct (Ascii.eqb ch "1"); [|discriminate]];
    (eapply IH; [|exact H]); lia.
Qed.

Lemma parse_line_nonneg line v : parse_line line = Ok (Some v) -> 0 <= v.
Proof.
  unfold parse_line, int_base2. intros H.
  repeat (case_match; try discriminate); res_inv;
    eapply int_base2_acc_nonneg; eauto; lia.
Qed.

Lemma parse_program_nonneg lines program :
  parse_program lines = Ok program -> Forall (fun v => 0 <= v) program.
Proof.
  revert program. induction lines as [|line rest IH]; intros program H; simpl in H; res_inv.
  - constructor.
  - apply Forall_app. split; [|by apply IH].
    destruct a as [v|]; simpl; [|constructor]. constructor; [|constructor].
    by eapply parse_line_nonneg.
Qed.

Lemma load_words_wf c program c' :
  cpu_wf c -> Forall (fun v => 0 <= v) program -> load_words 0 program c = Ok c' -> cpu_wf c'.
Proof.
  intros Hwf Hp H. pose proof H as (Hreg & Hpc & Hsp & Hfl & Hlen)%load_words_frame.
  destruct (decide (length program <= length c.(ram))%nat) as [Hle|Hgt].
  - destruct (load_words_ram program 0 c) as (c'' & H' & Hram); [lia|].
    change (Z.of_nat 0) with 0 in H'. rewrite H in H'. injection H' as <-. simpl in Hram.
    destruct Hwf as (H1 & H2 & H3 & H4 & H5 & H6).
    repeat split; rewrite ?Hlen, ?Hreg, ?Hpc, ?Hfl; auto.
    rewrite Hram. apply Forall_app. split; [done|]. by apply Forall_drop.
  - pose proof (load_words_overflow_gen program 0 c) as Ho. change (Z.of_nat 0) with 0 in Ho.
    rewrite Ho in H by lia. discriminate.
Qed.

(** C12 (boot invariant): every state the loop reaches from a freshly
    constructed CPU into which [load] stored a program ([boot_state]) is
    well formed. *)
Theorem boot_reachable_wf argv fs c c' :
  boot_state argv fs = Ok c -> reachable c c' -> cpu_wf c'.
Proof.
  intros Hl. apply reachable_preserved; [intros c1 c2 H Hs; inversion Hs; subst; eauto using step_wf|].
  unfold boot_state, load_file, load in Hl. simpl in Hl. res_inv.
  destruct (fs !! a) as [text|]; [|discriminate]. res_inv.
  eapply load_words_wf; [| eapply parse_program_nonneg; eauto | eauto].
  apply (bool_decide_unpack _). vm_compute. exact I.
Qed.

Lemma boot_reachable_wf_witness :
  exists c, boot_state (command "mult.ls8") (ls8_file "mult.ls8" (mult_program 8 9)) = Ok c /\
    cpu_wf c.
Proof.
  pose (c := match boot_state (command "mult.ls8") (ls8_file "mult.ls8" (mult_program 8 9)) with
             | Ok c => c | Raise _ => mk_cpu [] [] 0 0 0 end).
  assert (Hl : boot_state (command "mult.ls8") (ls8_file "mult.ls8" (mult_program 8 9)) = Ok c)
    by (vm_compute; reflexivity).
  exists c. split; [exact Hl|].
  exact (boot_reachable_wf _ _ c c Hl (reach_refl c)).
Defined.

(** ** End-to-end runs of three programs, for every input

    The programs are stepped symbolically: their operand bytes [v] and
    [w] stay variables and the handlers are unfolded down to list
    indexing, which computes on the fixed opcodes and addresses. *)

(** The state [run] starts from once [load] stored the bytes [ws] into
    the state [c0] built by [CPU_init]. *)
Lemma boot_state_ls8 name ws c0 :
  CPU_init = Ok c0 -> Forall (fun w => 0 <= w < 256) ws -> (length ws <= length c0.(ram))%nat ->
  boot_state (command name) (ls8_file name ws) = Ok (set_ram c0 (ws ++ drop (length ws) c0.(ram))).
Proof.
  intros Hinit Hws Hlen. unfold boot_state. rewrite Hinit. cbn [res_bind].
  rewrite (load_file_ls8 _ _ name ws) by (done || apply lookup_insert_eq).
  destruct (load_words_ram ws 0 c0) as (c' & Hc' & Hram); [lia|].
  change (Z.of_nat 0) with 0 in Hc'. rewrite Hc'.
  apply load_words_frame in Hc' as (Hreg & Hpc & Hsp & Hfl & _).
  destruct c', c0; cbn in *. by subst.
Qed.

Lemma boot_ls8 name ws fuel c0 :
  CPU_init = Ok c0 -> Forall (fun w => 0 <= w < 256) ws -> (length ws <= length c0.(ram))%nat ->
  boot (command name) (ls8_file name ws) fuel = run fuel (set_ram c0 (ws ++ drop (length ws) c0.(ram))).
Proof. intros. unfold boot. by erewrite boot_state_ls8. Qed.

(** The bytes of a program with operands [v], [w] are bytes. *)
Ltac program_bytes :=
  cbv [mult_program branch_program swap_program ldi prn mul hlt push pop cmp jeq];
  repeat constructor; lia.

(** Evaluate [run n c] on a state whose words are known except for
    operand values that no instruction compares. *)
Ltac run_vm :=
  match goal with
  | |- run ?n ?c0 = _ =>
      let r := fresh "r" in let Hr := fresh "Hr" in
      remember (run n c0) as r eqn:Hr; vm_compute in Hr; subst r; reflexivity
  end.

(** Unfold the loop body and its handlers on a state with known words,
    leaving the comparisons of unknown values to be decided. *)
Ltac sym_run :=
  simpl; unfold step, dispatch, op_ldi, op_prn, op_mul, op_push, op_pop, op_cmp,
    op_jmp, op_jeq, op_jne, alu, reg_get, reg_set, ram_read, ram_write; simpl.

(** C7 (spec scenario 6, for all factors): [mult.ls8] with any two bytes
    [v] and [w] prints their exact product [v * w] -- not reduced to 8
    bits -- and halts, for every fuel of at least its 5 iterations. *)
Theorem boot_mult name v w fuel :
  0 <= v < 256 -> 0 <= w < 256 -> (5 <= fuel)%nat ->
  exists c, boot (command name) (ls8_file name (mult_program v w)) fuel = ([Print (v * w)], Halted c).
Proof.
  intros Hv Hw Hf. rewrite (boot_ls8 _ _ _ _ eq_refl) by (program_bytes || (simpl; lia)).
  eexists. apply (run_halted_mono 5); [run_vm|done].
Qed.

Lemma boot_mult_witness :
  exists c, boot (command "mult.ls8") (ls8_file "mult.ls8" (mult_program 8 9)) 100 =
    ([Print 72], Halted c).
Proof. apply (boot_mult "mult.ls8" 8 9 100); lia. Defined.

(** C8 (spec scenario 7, for all operands): after CMP of R0 = [v] and
    R1 = [w], JEQ branches to the address in R2 exactly when [v = w]: the
    program prints [v] when they are equal and nothing otherwise, and
    halts, for every fuel of at least 7 iterations. *)
Theorem boot_branch name v w fuel :
  0 <= v < 256 -> 0 <= w < 256 -> (7 <= fuel)%nat ->
  exists c, boot (command name) (ls8_file name (branch_program v w)) fuel =
    (if decide (v = w) then [Print v] else [], Halted c).
Proof.
  intros Hv Hw Hf. rewrite (boot_ls8 _ _ _ _ eq_refl) by (program_bytes || (simpl; lia)).
  case_decide as Hvw.
  - subst. eexists. apply (run_halted_mono 7); [|done]. sym_run. by rewrite Z.eqb_refl.
  - apply Z.eqb_neq in Hvw. destruct (v <? w) eqn:Hlt; [|destruct (v >? w) eqn:Hgt];
      eexists; (apply (run_halted_mono 7); [|done]); sym_run; by rewrite ?Hvw, ?Hlt, ?Hgt.
Qed.

Lemma boot_branch_witness :
  (exists c, boot (command "b.ls8") (ls8_file "b.ls8" (branch_program 5 5)) 100 =
     ([Print 5], Halted c)) /\
  (exists c, boot (command "b.ls8") (ls8_file "b.ls8" (branch_program 5 6)) 100 =
     ([], Halted c)).
Proof. split; [apply (boot_branch "b.ls8" 5 5 100)|apply (boot_branch "b.ls8" 5 6 100)]; lia. Defined.

(** C10 (exchange through the stack): pushing R0 = [v] and R1 = [w] and
    popping them back into R0 and R1 exchanges them, so the program
    prints [w] then [v] and halts with [sp] back at 0.  As [sp] starts at
    0, the two pushes overwrite memory cell 0 -- the program's first
    opcode -- with [v] and cell 255 with [w]. *)
Theorem boot_swap name v w fuel :
  0 <= v < 256 -> 0 <= w < 256 -> (9 <= fuel)%nat ->
  exists c, boot (command name) (ls8_file name (swap_program v w)) fuel =
    ([Print w; Print v], Halted c) /\
    c.(sp) = 0 /\ py_get c.(ram) 0 = Ok v /\ py_get c.(ram) 255 = Ok w.
Proof.
  intros Hv Hw Hf. rewrite (boot_ls8 _ _ _ _ eq_refl) by (program_bytes || (simpl; lia)).
  eexists. split; [apply (run_halted_mono 9); [run_vm|done]|].
  split; [reflexivity|]. split; vm_compute; reflexivity.
Qed.

Lemma boot_swap_witness :
  exists c, boot (command "s.ls8") (ls8_file "s.ls8" (swap_program 3 4)) 100 =
    ([Print 4; Print 3], Halted c) /\ c.(sp) = 0.
Proof.
  destruct (boot_swap "s.ls8" 3 4 100) as (c & H & Hsp & _); [lia..|].
  exists c. split; [exact H|exact Hsp].
Defined.

End Programs.
